(** * ragbits: the Qdrant vector store and the options overlay

    A shallow embedding of
    - [ragbits/core/llms/clients/base.py] (the [LLMOptions.__or__] overlay),
    - [ragbits/core/vector_stores/qdrant.py] ([QdrantVectorStore]).

    Python objects are modelled by records, dictionaries by insertion-ordered
    association lists with unique keys, [float] by IEEE binary64 primitive
    floats, exceptions by a result type, and the calls to the backend client
    by a state-and-exception monad over an in-memory collection store.  The
    [trace] context manager only records arguments and results for the
    audit log; it is transparent here. *)

From Stdlib Require Import ZArith String List Bool PrimFloat.
From stdpp Require Import base option list strings gmap sorting.

Local Open Scope string_scope.
Local Open Scope list_scope.

(** ** Exceptions and results *)

Inductive exn : Type :=
  | StopIteration
  | RuntimeError
  | ValueError
  | KeyError
  | TypeError
  | IndexError
  | AttributeError
  | QdrantException.

Inductive result (A : Type) : Type :=
  | Ok (a : A)
  | Raise (e : exn).

Arguments Ok {A} a.
Arguments Raise {A} e.

Definition exn_eqb (a b : exn) : bool :=
  match a, b with
  | StopIteration, StopIteration | RuntimeError, RuntimeError
  | ValueError, ValueError | KeyError, KeyError
  | TypeError, TypeError | IndexError, IndexError
  | AttributeError, AttributeError
  | QdrantException, QdrantException => true
  | _, _ => false
  end.

(** ** Python dictionaries

    A [dict] keeps its keys unique and in insertion order: assigning to a key
    that is present replaces the value in place, assigning to a new key
    appends. *)

Module PyDict.
Section Dict.
Context {K V : Type} `{EqDecision K}.

Definition t : Type := list (K * V).

Fixpoint get (d : t) (key : K) : option V :=
  match d with
  | [] => None
  | (k, v) :: rest => if decide (k = key) then Some v else get rest key
  end.

(** [d.get(key, default)] *)
Definition get_default (d : t) (key : K) (default : V) : V :=
  match get d key with
  | Some v => v
  | None => default
  end.

(** [key in d] *)
Definition mem (d : t) (key : K) : bool :=
  match get d key with
  | Some _ => true
  | None => false
  end.

(** [d[key] = value] *)
Fixpoint set (d : t) (key : K) (value : V) : t :=
  match d with
  | [] => [(key, value)]
  | (k, v) :: rest =>
      if decide (k = key) then (k, value) :: rest
      else (k, v) :: set rest key value
  end.

(** [d.update(other)] *)
Definition update (d other : t) : t :=
  fold_left (fun acc kv => set acc (fst kv) (snd kv)) other d.

(** [del d[key]] *)
Fixpoint remove (d : t) (key : K) : t :=
  match d with
  | [] => []
  | (k, v) :: rest =>
      if decide (k = key) then rest else (k, v) :: remove rest key
  end.

Definition keys (d : t) : list K := map fst d.
Definition values (d : t) : list V := map snd d.

(** [{k: v for k, v in pairs}] *)
Definition of_pairs (pairs : list (K * V)) : t := update [] pairs.

End Dict.
Arguments t : clear implicits.
End PyDict.

(** ** Python values held by option fields *)

Inductive pyval : Type :=
  | VNone                 (* None *)
  | VNotGiven             (* the NOT_GIVEN sentinel, an instance of NotGiven *)
  | VBool (b : bool)
  | VInt (z : Z)
  | VFloat (f : float)
  | VStr (s : string).

(** [isinstance(v, NotGiven)] *)
Definition isinstance_NotGiven (v : pyval) : bool :=
  match v with
  | VNotGiven => true
  | _ => false
  end.

(** Modelled from the spec: the class [NotGiven] is imported from
    [ragbits.core.types], which is not part of the sources at hand; the
    sentinel means "field left unspecified" and, like [None], counts as
    false when tested.  The other cases are Python's truth value testing. *)
Definition truthy (v : pyval) : bool :=
  match v with
  | VNone => false
  | VNotGiven => false
  | VBool b => b
  | VInt z => negb (z =? 0)%Z
  | VFloat f => negb (PrimFloat.eqb f 0%float)
  | VStr s => negb (String.eqb s "")
  end.

(** [1 - v] *)
Definition one_minus (v : pyval) : result pyval :=
  match v with
  | VFloat f => Ok (VFloat (PrimFloat.sub 1%float f))
  | VInt z => Ok (VInt (1 - z))
  | VBool b => Ok (VInt (1 - Z.b2z b))
  | VNone | VNotGiven | VStr _ => Raise TypeError
  end.

(** ** base.py: [LLMOptions]

    An options object is an instance of a dataclass: the name of its class
    and the dictionary of its fields, which is what [asdict] returns. *)

Record LLMOptions : Type := mkOptions {
  class_name : string;
  fields : PyDict.t string pyval;
}.

(** [asdict(self)]: a fresh dictionary of the fields. *)
Definition asdict (o : LLMOptions) : PyDict.t string pyval := fields o.

(** [d[key]] for a key taken from [d] itself, where the lookup cannot
    fail. *)
Definition getitem (d : PyDict.t string pyval) (key : string) : pyval :=
  PyDict.get_default d key VNone.

(** The dictionary comprehension of [__or__] (base.py, lines 30-35):
    for every key of [self_dict], the value of [other_dict] unless that
    value is an instance of [NotGiven]. [other_dict.get(key)] is [None] for
    a key that [other_dict] lacks. *)
Definition updated_value (self_dict other_dict : PyDict.t string pyval)
    (key : string) : pyval :=
  if negb (isinstance_NotGiven (PyDict.get_default other_dict key VNone))
  then PyDict.get_default other_dict key (getitem self_dict key)
  else getitem self_dict key.

Definition updated_dict (self_dict other_dict : PyDict.t string pyval)
  : PyDict.t string pyval :=
  PyDict.of_pairs
    (map (fun key => (key, updated_value self_dict other_dict key))
         (PyDict.keys self_dict)).

(** [self | other] as a value: the class of [self] applied to the updated
    dictionary as keyword arguments. *)
Definition or_ (self other : LLMOptions) : LLMOptions :=
  {| class_name := class_name self;
     fields := updated_dict (asdict self) (asdict other) |}.

(** *** The object store

    Options objects live in a store and are passed by reference; [__or__]
    allocates its result and writes to no existing object. *)

Definition ref : Type := nat.
Definition heap : Type := list LLMOptions.

Definition alloc (h : heap) (o : LLMOptions) : heap * ref :=
  (h ++ [o], length h).

Definition __or__ (h : heap) (self other : ref) : option (heap * ref) :=
  match h !! self, h !! other with
  | Some s, Some o => Some (alloc h (or_ s o))
  | _, _ => None
  end.

(** [o.name] *)
Definition getattr (o : LLMOptions) (name : string) : result pyval :=
  match PyDict.get (fields o) name with
  | Some v => Ok v
  | None => Raise AttributeError
  end.

(** Modelled from the spec: the class [VectorStoreOptions] is declared in
    [ragbits.core.vector_stores.base], which is not part of the sources at
    hand; it is an options bundle with the fields [k] (result count limit)
    and [max_distance] (maximum acceptable distance), overlaid by the same
    [__or__] protocol. *)
Definition VectorStoreOptions (k max_distance : pyval) : LLMOptions :=
  {| class_name := "VectorStoreOptions";
     fields := [("k", k); ("max_distance", max_distance)] |}.

(** [VectorStoreOptions()]: five results, no distance bound. *)
Definition VectorStoreOptions_default : LLMOptions :=
  VectorStoreOptions (VInt 5) VNone.

(** ** Entries, embeddings

    [VectorStoreEntry], [EmbeddingType] and the embedding delegate
    [_create_embeddings] belong to [ragbits.core.vector_stores.base], which
    is not part of the sources at hand. *)

(** A UUID is represented by its canonical text, so that [str(id)] is the
    identity. *)
Definition UUID : Type := string.
Definition vector : Type := list float.
Definition bytes : Type := list Byte.byte.

Inductive scalar : Type :=
  | SStr (s : string)
  | SInt (z : Z)
  | SBool (b : bool).

(** A nested dictionary with string keys, item by item in insertion order:
    an item binds its key to a scalar or to a nested dictionary. *)
Inductive nested_dict : Type :=
  | DEmpty
  | DScalar (key : string) (value : scalar) (rest : nested_dict)
  | DNested (key : string) (value : nested_dict) (rest : nested_dict).

Definition WhereQuery : Type := nested_dict.

(** Modelled from the spec: the class [VectorStoreEntry] (section 3), absent
    from the sources at hand: an identity, an optional text, an optional
    image and a metadata mapping. *)
Record VectorStoreEntry : Type := mkEntry {
  id : UUID;
  text : option string;
  image_bytes : option bytes;
  metadata : nested_dict;
}.

(** Modelled from the spec: the enumeration [EmbeddingType] (section 3),
    absent from the sources at hand: which payload of an entry is
    embedded. *)
Inductive EmbeddingType : Type := TEXT | IMAGE.

Inductive Distance : Type := COSINE | EUCLID | DOT | MANHATTAN.

(** The embedder capability: order-preserving batch embedding. *)
Record Embedder : Type := mkEmbedder {
  embed_text : list string → list vector;
  embed_image : list bytes → list vector;
}.

(** Modelled from the spec: the eligibility rule of [_create_embeddings]
    (section 4.2): the entries that carry the payload selected by the
    embedding type, each with that payload. *)
Definition text_entries (entries : list VectorStoreEntry)
  : list (UUID * string) :=
  omap (fun e => match text e with
                 | Some t => Some (id e, t)
                 | None => None
                 end) entries.

(** Modelled from the spec: as [text_entries], for the image payload. *)
Definition image_entries (entries : list VectorStoreEntry)
  : list (UUID * bytes) :=
  omap (fun e => match image_bytes e with
                 | Some b => Some (id e, b)
                 | None => None
                 end) entries.

(** Modelled from the spec: [_create_embeddings] (section 4.2), absent from
    the sources at hand.  Entries lacking the payload required by the
    embedding type are left out of the returned map; the eligible payloads
    go to the embedder in one batch and each vector is bound to the
    identity of its entry. *)
Definition _create_embeddings (embedder : Embedder)
    (embedding_type : EmbeddingType) (entries : list VectorStoreEntry)
  : PyDict.t UUID vector :=
  match embedding_type with
  | TEXT =>
      let eligible := text_entries entries in
      PyDict.of_pairs
        (zip (map fst eligible) (embed_text embedder (map snd eligible)))
  | IMAGE =>
      let eligible := image_entries entries in
      PyDict.of_pairs
        (zip (map fst eligible) (embed_image embedder (map snd eligible)))
  end.

(** ** Filters *)

(** Modelled from the spec: the key rule of [flatten_dict] (section 4.3):
    parent key, a dot, child key; the key alone at the top level. *)
Definition child_key (parent_key : option string) (key : string) : string :=
  match parent_key with
  | Some p => p +:+ "." +:+ key
  | None => key
  end.

(** Modelled from the spec: [flatten_dict] belongs to
    [ragbits.core.utils.dict_transformations], which is not part of the
    sources at hand.  Nested keys are joined into dotted paths (parent key,
    a dot, child key, recursively); the result is a dictionary, whose items
    [_create_qdrant_filter] enumerates. *)
Fixpoint flatten_items (items : PyDict.t string scalar)
    (input_dict : nested_dict) (parent_key : option string)
  : PyDict.t string scalar :=
  match input_dict with
  | DEmpty => items
  | DScalar key value rest =>
      flatten_items (PyDict.set items (child_key parent_key key) value)
        rest parent_key
  | DNested key value rest =>
      flatten_items
        (PyDict.update items
           (flatten_items [] value (Some (child_key parent_key key))))
        rest parent_key
  end.

(** Modelled from the spec: [flatten_dict] called on a whole dictionary,
    as [_create_qdrant_filter] does. *)
Definition flatten_dict (input_dict : nested_dict) : PyDict.t string scalar :=
  flatten_items [] input_dict None.

Record FieldCondition : Type := mkFieldCondition {
  key : string;
  match_value : scalar;
}.

Record Filter : Type := mkFilter {
  must : list FieldCondition;
}.

(** qdrant.py, lines 226-244. *)
Definition _create_qdrant_filter (where_ : WhereQuery) : Filter :=
  let where_ := flatten_dict where_ in
  {| must := map (fun kv => {| key := "metadata." +:+ fst kv;
                               match_value := snd kv |}) where_ |}.

(** ** The backend

    The Qdrant client is an external collaborator.  Its collections are
    modelled in memory: a collection has the vector size and distance it was
    created with, and its points keyed by identity.  A request that names a
    collection the backend does not have raises [ValueError], as the
    docstring of [remove] records.  A collection keeps vectors of one
    size: the backend refuses a point or a query vector of another size
    with the [QdrantException] that the docstring of [store] names.  An
    upload is one step of the model: refused, it writes no point. *)

(** [entry.model_dump(exclude_none=True)]: the fields of the entry, an
    absent payload left out. *)
Record Payload : Type := mkPayload {
  payload_id : string;
  payload_text : option string;
  payload_image_bytes : option bytes;
  payload_metadata : nested_dict;
}.

Definition model_dump (entry : VectorStoreEntry) : Payload :=
  {| payload_id := id entry;
     payload_text := text entry;
     payload_image_bytes := image_bytes entry;
     payload_metadata := metadata entry |}.

(** [VectorStoreEntry.model_validate(payload)] *)
Definition model_validate (payload : Payload) : VectorStoreEntry :=
  {| id := payload_id payload;
     text := payload_text payload;
     image_bytes := payload_image_bytes payload;
     metadata := payload_metadata payload |}.

Record PointStruct : Type := mkPoint {
  point_id : string;
  point_vector : vector;
  point_payload : Payload;
}.

Record ScoredPoint : Type := mkScored {
  scored_id : string;
  scored_score : float;
  scored_vector : vector;
  scored_payload : Payload;
}.

Record Collection : Type := mkCollection {
  vectors_size : nat;
  vectors_distance : Distance;
  points : PyDict.t string (vector * Payload);
}.

Abbreviation Backend := (gmap string Collection).

(** What the engine behind the client decides on its own: how stored
    vectors are ranked against a query vector under a score threshold, when
    a payload satisfies a field condition, whether deleting an unknown
    point raises [KeyError] (the embedded engine) or is ignored (a
    server), and in which order points are listed when no query vector
    ranks them: some order of the same points, the engine's own. *)
Class Engine : Type := mkEngine {
  search : Distance → vector → option pyval →
           list (string * (vector * Payload)) → list ScoredPoint;
  matches : FieldCondition → Payload → bool;
  strict_delete : bool;
  scan : list (string * (vector * Payload)) →
         list (string * (vector * Payload));
  scan_permutation : ∀ pts, scan pts ≡ₚ pts;
}.

(** Calls on the client: a state and exception monad over the backend. *)
Definition M (A : Type) : Type := Backend → result A * Backend.

Definition ret {A : Type} (a : A) : M A := fun s => (Ok a, s).

Definition raise {A : Type} (e : exn) : M A := fun s => (Raise e, s).

Definition bind {A B : Type} (m : M A) (f : A → M B) : M B :=
  fun s => match m s with
           | (Ok a, s') => f a s'
           | (Raise e, s') => (Raise e, s')
           end.

Definition lift {A : Type} (r : result A) : M A := fun s => (r, s).

Notation "'let*' x ':=' m 'in' k" := (bind m (fun x => k))
  (at level 10, x name, m at level 100, k at level 200).
Notation "m '>>' k" := (bind m (fun _ => k))
  (at level 100, k at level 200, right associativity).

(** The body of an [async def]: a [StopIteration] that escapes it reaches
    the caller as a [RuntimeError]. *)
Definition async_def {A : Type} (body : M A) : M A :=
  fun s => match body s with
           | (Raise StopIteration, s') => (Raise RuntimeError, s')
           | r => r
           end.

(** [with contextlib.suppress(e): body] *)
Definition suppress (e : exn) (body : M unit) : M unit :=
  fun s => match body s with
           | (Raise e', s') =>
               if exn_eqb e e' then (Ok tt, s') else (Raise e', s')
           | r => r
           end.

(** [next(iter(values))] *)
Definition next_iter {A : Type} (values : list A) : result A :=
  match values with
  | v :: _ => Ok v
  | [] => Raise StopIteration
  end.

(** [values[0]] *)
Definition first_item {A : Type} (values : list A) : result A :=
  match values with
  | v :: _ => Ok v
  | [] => Raise IndexError
  end.

Record QueryRequest : Type := mkQuery {
  collection_name : string;
  query : option vector;
  query_filter : option Filter;
  limit : pyval;
  offset : option Z;
  score_threshold : option pyval;
}.

(** The client takes a count only as a non-negative integer. *)
Definition as_count (v : pyval) : result nat :=
  match v with
  | VInt z => if (0 <=? z)%Z then Ok (Z.to_nat z) else Raise ValueError
  | _ => Raise TypeError
  end.

Definition unscored (p : string * (vector * Payload)) : ScoredPoint :=
  {| scored_id := fst p;
     scored_score := 0%float;
     scored_vector := fst (snd p);
     scored_payload := snd (snd p) |}.

Section Client.
Context {engine : Engine}.

Definition passes (f : option Filter) (p : string * (vector * Payload))
  : bool :=
  match f with
  | Some f => forallb (fun c => matches c (snd (snd p))) (must f)
  | None => true
  end.

Definition collection_exists (name : string) : M bool :=
  fun s => (Ok (bool_decide (is_Some (s !! name))), s).

Definition create_collection (name : string) (size : nat)
    (distance : Distance) : M unit :=
  fun s => match s !! name with
           | Some _ => (Raise ValueError, s)
           | None =>
               (Ok tt,
                <[name := {| vectors_size := size;
                             vectors_distance := distance;
                             points := [] |}]> s)
           end.

(** Whether a vector has the size of the collection. *)
Definition has_size (size : nat) (v : vector) : bool :=
  Nat.eqb (length v) size.

Definition upsert (pts : PyDict.t string (vector * Payload))
    (p : PointStruct) : PyDict.t string (vector * Payload) :=
  PyDict.set pts (point_id p) (point_vector p, point_payload p).

Definition upload_points (name : string) (new_points : list PointStruct)
  : M unit :=
  fun s => match s !! name with
           | None => (Raise ValueError, s)
           | Some c =>
               if forallb (fun p => has_size (vectors_size c)
                                      (point_vector p)) new_points
               then
                 (Ok tt,
                  <[name := {| vectors_size := vectors_size c;
                               vectors_distance := vectors_distance c;
                               points := fold_left upsert new_points
                                           (points c) |}]> s)
               else (Raise QdrantException, s)
           end.

Fixpoint delete_ids (pts : PyDict.t string (vector * Payload))
    (ids : list string)
  : result unit * PyDict.t string (vector * Payload) :=
  match ids with
  | [] => (Ok tt, pts)
  | i :: rest =>
      if PyDict.mem pts i then delete_ids (PyDict.remove pts i) rest
      else if strict_delete then (Raise KeyError, pts)
      else delete_ids pts rest
  end.

Definition delete (name : string) (ids : list string) : M unit :=
  fun s => match s !! name with
           | None => (Raise ValueError, s)
           | Some c =>
               let (r, pts) := delete_ids (points c) ids in
               (r,
                <[name := {| vectors_size := vectors_size c;
                             vectors_distance := vectors_distance c;
                             points := pts |}]> s)
           end.

Definition count (name : string) : M nat :=
  fun s => match s !! name with
           | None => (Raise ValueError, s)
           | Some c => (Ok (length (points c)), s)
           end.

(** The filter selects the candidates; a query vector of the collection's
    size ranks them, and without a query vector they come in the engine's
    order; then the offset is skipped and the limit taken. *)
Definition query_points (q : QueryRequest) : M (list ScoredPoint) :=
  fun s =>
    match s !! collection_name q with
    | None => (Raise ValueError, s)
    | Some c =>
        match as_count (limit q),
              as_count (VInt (default 0%Z (offset q))) with
        | Ok lim, Ok off =>
            let candidates := filter (fun p => passes (query_filter q) p)
                                (points c) in
            match query q with
            | Some v =>
                if has_size (vectors_size c) v
                then
                  (Ok (take lim
                         (drop off
                            (search (vectors_distance c) v
                               (score_threshold q) candidates))), s)
                else (Raise QdrantException, s)
            | None =>
                (Ok (take lim (drop off (map unscored (scan candidates)))),
                 s)
            end
        | Raise e, _ | _, Raise e => (Raise e, s)
        end
    end.

End Client.

(** ** qdrant.py: [QdrantVectorStore] *)

(** The client keeps the keyword arguments it was created with in
    [_init_options]; the backend it talks to is the state of [M]. *)
Record AsyncQdrantClient : Type := mkClient {
  _init_options : PyDict.t string pyval;
}.

Record QdrantVectorStore : Type := mkStore {
  _client : AsyncQdrantClient;
  _index_name : string;
  _embedder : Embedder;
  _embedding_type : EmbeddingType;
  _distance_method : Distance;
  default_options : LLMOptions;
}.

(** Modelled from the spec: the constructor of the base class, absent from
    the sources at hand, keeps the default options it is given or, when it
    is given none, a fresh instance of [options_cls] ("constructed by the
    caller or defaulted at store-construction time"). *)
Definition base_default_options (default_options : option LLMOptions)
  : LLMOptions :=
  default VectorStoreOptions_default default_options.

(** [__init__] (lines 34-61).  An argument left out is [None] here and
    takes the default of the signature. *)
Definition __init__ (client : AsyncQdrantClient) (index_name : string)
    (embedder : Embedder) (embedding_type : option EmbeddingType)
    (distance_method : option Distance) (default_options : option LLMOptions)
  : QdrantVectorStore :=
  {| _client := client;
     _index_name := index_name;
     _embedder := embedder;
     _embedding_type := default TEXT embedding_type;
     _distance_method := default COSINE distance_method;
     default_options := base_default_options default_options |}.

(** The arguments [__reduce__] hands to [_reconstruct]. *)
Record reduce_args : Type := mkReduce {
  r_client_params : PyDict.t string pyval;
  r_index_name : string;
  r_embedder : Embedder;
  r_distance_method : Distance;
  r_default_options : LLMOptions;
}.

(** [_reconstruct] (lines 71-84). *)
Definition _reconstruct (args : reduce_args) : QdrantVectorStore :=
  __init__ {| _init_options := r_client_params args |}
    (r_index_name args) (r_embedder args) None
    (Some (r_distance_method args)) (Some (r_default_options args)).

(** [__reduce__] (lines 86-95). *)
Definition __reduce__ (self : QdrantVectorStore) : reduce_args :=
  {| r_client_params := _init_options (_client self);
     r_index_name := _index_name self;
     r_embedder := _embedder self;
     r_distance_method := _distance_method self;
     r_default_options := default_options self |}.

Record VectorStoreResult : Type := mkResult {
  entry : VectorStoreEntry;
  score : float;
  result_vector : vector;
}.

(** [retrieve], line 172: an options object counts as true, [None] as
    false. *)
Definition merged_options (self : QdrantVectorStore)
    (options : option LLMOptions) : LLMOptions :=
  match options with
  | Some o => or_ (default_options self) o
  | None => default_options self
  end.

(** [retrieve], line 173. *)
Definition score_threshold_of (merged : LLMOptions)
  : result (option pyval) :=
  match getattr merged "max_distance" with
  | Ok max_distance =>
      if truthy max_distance then
        match one_minus max_distance with
        | Ok v => Ok (Some v)
        | Raise e => Raise e
        end
      else Ok None
  | Raise e => Raise e
  end.

(** The arguments of the [query_points] call of [retrieve]
    (lines 182-191). *)
Definition retrieve_request (self : QdrantVectorStore) (text_ : string)
    (options : option LLMOptions) : result QueryRequest :=
  let merged := merged_options self options in
  match score_threshold_of merged with
  | Ok threshold =>
      match first_item (embed_text (_embedder self) [text_]) with
      | Ok query_vector =>
          match getattr merged "k" with
          | Ok k =>
              Ok {| collection_name := _index_name self;
                    query := Some query_vector;
                    query_filter := None;
                    limit := k;
                    offset := None;
                    score_threshold := threshold |}
          | Raise e => Raise e
          end
      | Raise e => Raise e
      end
  | Raise e => Raise e
  end.

Definition to_result (point : ScoredPoint) : VectorStoreResult :=
  {| entry := model_validate (scored_payload point);
     score := scored_score point;
     result_vector := scored_vector point |}.

(** A non-empty dictionary counts as true. *)
Definition dict_truthy (d : nested_dict) : bool :=
  match d with
  | DEmpty => false
  | _ => true
  end.

(** [list], line 274: the filter is translated unless it is [None] or
    empty. *)
Definition qdrant_filter_of (where_ : option WhereQuery) : option Filter :=
  match where_ with
  | Some w => if dict_truthy w then Some (_create_qdrant_filter w) else None
  | None => None
  end.

Section Store.
Context {engine : Engine}.

(** [store] (lines 116-159). *)
Definition store (self : QdrantVectorStore)
    (entries : list VectorStoreEntry) : M unit :=
  async_def
    match entries with
    | [] => ret tt
    | _ :: _ =>
        let embeddings :=
          _create_embeddings (_embedder self) (_embedding_type self)
            entries in
        let* present := collection_exists (_index_name self) in
        (if negb present then
           let* first := lift (next_iter (PyDict.values embeddings)) in
           create_collection (_index_name self) (length first)
             (_distance_method self)
         else ret tt) >>
        let new_points :=
          omap (fun e =>
                  match PyDict.get embeddings (id e) with
                  | Some v => Some {| point_id := id e;
                                      point_vector := v;
                                      point_payload := model_dump e |}
                  | None => None
                  end) entries in
        upload_points (_index_name self) new_points
    end.

(** [retrieve] (lines 161-205). *)
Definition retrieve (self : QdrantVectorStore) (text_ : string)
    (options : option LLMOptions) : M (list VectorStoreResult) :=
  async_def
    (let* request := lift (retrieve_request self text_ options) in
     let* query_results := query_points request in
     ret (map to_result query_results)).

(** [remove] (lines 207-224). *)
Definition remove (self : QdrantVectorStore) (ids : list UUID) : M unit :=
  async_def
    (suppress KeyError (delete (_index_name self) ids)).

(** The arguments of the [query_points] call of [list] (lines 272-283):
    a limit that is [None] or zero gives way to the collection's count. *)
Definition list_request (self : QdrantVectorStore)
    (where_ : option WhereQuery) (limit_ : option Z) (offset_ : Z)
  : M QueryRequest :=
  let* limit_ :=
    match limit_ with
    | Some z => if (z =? 0)%Z
                then let* n := count (_index_name self) in ret (Z.of_nat n)
                else ret z
    | None => let* n := count (_index_name self) in ret (Z.of_nat n)
    end in
  ret {| collection_name := _index_name self;
         query := None;
         query_filter := qdrant_filter_of where_;
         limit := VInt limit_;
         offset := Some offset_;
         score_threshold := None |}.

(** [list] (lines 246-287). *)
Definition list_ (self : QdrantVectorStore) (where_ : option WhereQuery)
    (limit_ : option Z) (offset_ : Z) : M (list VectorStoreEntry) :=
  async_def
    (let* present := collection_exists (_index_name self) in
     if negb present then ret []
     else
       let* request := list_request self where_ limit_ offset_ in
       let* results := query_points request in
       ret (map (fun point => model_validate (scored_payload point))
              results)).

End Store.

(** ** A concrete engine and concrete stores, for running the model *)

Definition scalar_eqb (a b : scalar) : bool :=
  match a, b with
  | SStr x, SStr y => String.eqb x y
  | SInt x, SInt y => (x =? y)%Z
  | SBool x, SBool y => Bool.eqb x y
  | _, _ => false
  end.

(** A condition on a dotted path holds when the payload has that value
    under that path. *)
Definition path_matches (c : FieldCondition) (p : Payload) : bool :=
  match PyDict.get (flatten_items [] (payload_metadata p) (Some "metadata"))
          (key c) with
  | Some v => scalar_eqb v (match_value c)
  | None => false
  end.

Fixpoint dot (a b : vector) : float :=
  match a, b with
  | x :: a', y :: b' => PrimFloat.add (PrimFloat.mul x y) (dot a' b')
  | _, _ => 0%float
  end.

Fixpoint insert_by_score (p : ScoredPoint) (ranked : list ScoredPoint)
  : list ScoredPoint :=
  match ranked with
  | [] => [p]
  | q :: rest =>
      if PrimFloat.ltb (scored_score q) (scored_score p)
      then p :: q :: rest
      else q :: insert_by_score p rest
  end.

Definition above (threshold : option pyval) (p : ScoredPoint) : bool :=
  match threshold with
  | Some (VFloat t) => PrimFloat.leb t (scored_score p)
  | _ => true
  end.

(** Ranking by dot product, best first, scores under the threshold
    dropped. *)
Definition dot_search (_ : Distance) (v : vector) (threshold : option pyval)
    (candidates : list (string * (vector * Payload))) : list ScoredPoint :=
  fold_right insert_by_score []
    (List.filter (above threshold)
       (map (fun p => {| scored_id := fst p;
                         scored_score := dot v (fst (snd p));
                         scored_vector := fst (snd p);
                         scored_payload := snd (snd p) |}) candidates)).

(** Points in the order of their identities. *)
Definition by_id (p q : string * (vector * Payload)) : Prop :=
  Is_true (String.leb (fst p) (fst q)).

Definition embedded_engine : Engine :=
  {| search := dot_search;
     matches := path_matches;
     strict_delete := true;
     scan := merge_sort by_id;
     scan_permutation := merge_sort_Permutation by_id |}.

Definition server_engine : Engine :=
  {| search := dot_search;
     matches := path_matches;
     strict_delete := false;
     scan := merge_sort by_id;
     scan_permutation := merge_sort_Permutation by_id |}.

(** An embedder with two-dimensional text vectors and
    three-dimensional image vectors. *)
Definition sample_embedder : Embedder :=
  {| embed_text := map (fun _ => [1%float; 0%float]);
     embed_image := map (fun _ => [0%float; 1%float; 0%float]) |}.

Definition sample_client : AsyncQdrantClient :=
  {| _init_options := [("url", VStr "http://localhost:6333")] |}.

(** A store over the index [docs], with the text or the image payload
    embedded. *)
Definition sample_store (embedding_type : EmbeddingType)
  : QdrantVectorStore :=
  __init__ sample_client "docs" sample_embedder (Some embedding_type)
    None None.

Definition text_entry (i t : string) : VectorStoreEntry :=
  {| id := i; text := Some t; image_bytes := None; metadata := DEmpty |}.

Definition image_entry (i : string) : VectorStoreEntry :=
  {| id := i; text := None; image_bytes := Some [Byte.x01];
     metadata := DEmpty |}.

(** A collection of three text entries, and a backend that holds it under
    the name [docs]. *)
Definition three_entry_collection : Collection :=
  {| vectors_size := 2;
     vectors_distance := COSINE;
     points :=
       [("1", ([1%float; 0%float], model_dump (text_entry "1" "the cat")));
        ("2", ([1%float; 0%float], model_dump (text_entry "2" "a dog")));
        ("3", ([1%float; 0%float], model_dump (text_entry "3" "one bird")))]
  |}.

Definition three_entry_backend : Backend :=
  {["docs" := three_entry_collection]}.

(** Entries with a [kind] in their metadata, a collection that holds them
    in an order that is not that of their identities, and a backend that
    holds it under the name [docs]. *)
Definition kind_entry (i t kind : string) : VectorStoreEntry :=
  {| id := i; text := Some t; image_bytes := None;
     metadata := DScalar "kind" (SStr kind) DEmpty |}.

Definition kind_collection : Collection :=
  {| vectors_size := 2;
     vectors_distance := COSINE;
     points :=
       [("3", ([1%float; 0%float],
               model_dump (kind_entry "3" "one bird" "pet")));
        ("1", ([1%float; 0%float],
               model_dump (kind_entry "1" "the fox" "wild")));
        ("4", ([1%float; 0%float],
               model_dump (kind_entry "4" "a dog" "pet")));
        ("2", ([1%float; 0%float],
               model_dump (kind_entry "2" "the cat" "pet")))] |}.

Definition kind_backend : Backend := {["docs" := kind_collection]}.

(** An empty collection of vectors of size three, and a backend that
    holds it under the name [docs]. *)
Definition wide_collection : Collection :=
  {| vectors_size := 3; vectors_distance := COSINE; points := [] |}.

Definition wide_backend : Backend := {["docs" := wide_collection]}.

(** A backend whose collection [docs] holds one text entry. *)
Definition one_entry_backend : Backend :=
  snd (store (sample_store TEXT)
         [text_entry "1" "the cat sat"] ∅).

(** ** base.py: [LLMOptions.dict] *)

(** [value is None] *)
Definition is_None (v : pyval) : bool :=
  match v with
  | VNone => true
  | _ => false
  end.

(** The value expression of the comprehension of [dict] (line 49). *)
Definition provider_value (_not_given value : pyval) : pyval :=
  if is_None value || isinstance_NotGiven value then _not_given else value.

(** [dict] (base.py, lines 39-51).  [_not_given] is the class attribute
    that stands for "not given" towards a provider: [None] in [LLMOptions]
    itself, a provider's own sentinel in a subclass. *)
Definition dict_ (_not_given : pyval) (self : LLMOptions)
  : PyDict.t string pyval :=
  let options := asdict self in
  PyDict.of_pairs
    (map (fun kv : string * pyval =>
            (fst kv, provider_value _not_given (snd kv)))
       options).

(** ** qa.py: the [format_output] methods of the generation tasks *)

(** A value of the dictionaries [format_output] returns: a string or a
    list of strings. *)
Inductive out_value : Type :=
  | OStr (s : string)
  | OList (l : list string).

(** [input[key]], where [input] may be [None]: subscripting [None] raises
    [TypeError], a key the dictionary lacks raises [KeyError]. *)
Definition input_item (input : option (PyDict.t string string))
    (key : string) : result string :=
  match input with
  | None => Raise TypeError
  | Some d => match PyDict.get d key with
              | Some v => Ok v
              | None => Raise KeyError
              end
  end.

(** [sub in s] for strings: [sub] occurs in [s] at some position. *)
Fixpoint contains (s sub : string) : bool :=
  String.prefix sub s
  || match s with
     | EmptyString => false
     | String _ rest => contains rest sub
     end.

(** [QueryGenTask.format_output] (lines 17-28). *)
Definition QueryGenTask_format_output (output : string)
    (input : option (PyDict.t string string))
  : result (PyDict.t string out_value) :=
  match input_item input "chunk" with
  | Ok chunk => Ok [("chunk", OStr chunk); ("question", OStr output)]
  | Raise e => Raise e
  end.

(** [AnswerGenTask.format_output] (lines 85-96). *)
Definition AnswerGenTask_format_output (output : string)
    (input : option (PyDict.t string string))
  : result (PyDict.t string out_value) :=
  Ok [("basic_answer", OStr output)].

Section PassagesGenTask.
(** [get_passages_list] and [get_closest_substring] come from the package's
    [utils] module, which is not part of the sources at hand; they are
    parameters here.  [should_get_matches] is the class attribute of that
    name. *)
Variable get_passages_list : string → option (list string).
Variable get_closest_substring : string → string → string.
Variable should_get_matches : bool.

(** [get_passages_list(output) or []] (line 59): [None] and the empty list
    both give way to the empty list. *)
Definition extracted_passages (output : string) : list string :=
  match get_passages_list output with
  | Some (p :: rest) => p :: rest
  | Some [] | None => []
  end.

(** The loop of lines 64-69: a passage found in the chunk is kept, another
    is replaced by the closest substring of the chunk. *)
Fixpoint match_passages (input : option (PyDict.t string string))
    (passages matched_passages : list string) : result (list string) :=
  match passages with
  | [] => Ok matched_passages
  | passage :: rest =>
      match input_item input "chunk" with
      | Ok chunk =>
          if contains chunk passage
          then match_passages input rest (matched_passages ++ [passage])
          else
            match input_item input "chunk" with
            | Ok chunk' =>
                match_passages input rest
                  (matched_passages
                   ++ [get_closest_substring chunk' passage])
            | Raise e => Raise e
            end
      | Raise e => Raise e
      end
  end.

(** The dictionary both branches return (lines 71 and 73). *)
Definition passages_output (input : option (PyDict.t string string))
    (passages : list string) : result (PyDict.t string out_value) :=
  match input_item input "chunk" with
  | Ok chunk =>
      match input_item input "question" with
      | Ok question =>
          Ok [("chunk", OStr chunk); ("question", OStr question);
              ("passages", OList passages)]
      | Raise e => Raise e
      end
  | Raise e => Raise e
  end.

(** [PassagesGenTask.format_output] (lines 46-73). *)
Definition PassagesGenTask_format_output (output : string)
    (input : option (PyDict.t string string))
  : result (PyDict.t string out_value) :=
  let passages := extracted_passages output in
  if should_get_matches then
    match match_passages input passages [] with
    | Ok matched_passages => passages_output input matched_passages
    | Raise e => Raise e
    end
  else passages_output input passages.

End PassagesGenTask.

(** ** Vocabulary of the statements *)

(** The binary64 value of the literal [0.2]. *)
Definition float_0_2 : float := 0x1.999999999999ap-3%float.

(** The binary64 value of the literal [0.8]. *)
Definition float_0_8 : float := 0x1.999999999999ap-1%float.

(** The leaves of a nested dictionary, each with the path of keys that
    leads to it. *)
Fixpoint leaves (d : nested_dict) : list (list string * scalar) :=
  match d with
  | DEmpty => []
  | DScalar k v rest => ([k], v) :: leaves rest
  | DNested k sub rest =>
      map (fun l => (k :: fst l, snd l)) (leaves sub) ++ leaves rest
  end.

(** The keys of a path joined by dots. *)
Definition dotted (path : list string) : string := String.concat "." path.

(** The key that a leaf reached by [path] gets under [parent_key]. *)
Definition key_under (parent_key : option string) (path : list string)
  : string :=
  child_key parent_key (dotted path).

(** The equality condition of a leaf. *)
Definition leaf_condition (l : list string * scalar) : FieldCondition :=
  {| key := "metadata." +:+ dotted (fst l); match_value := snd l |}.

(** Whether an entry carries the payload the embedding type selects. *)
Definition has_payload (embedding_type : EmbeddingType)
    (e : VectorStoreEntry) : bool :=
  match embedding_type with
  | TEXT => bool_decide (is_Some (text e))
  | IMAGE => bool_decide (is_Some (image_bytes e))
  end.

(** The points [store] builds: one for each entry that has an embedding
    (lines 145-153). *)
Definition entry_points (embeddings : PyDict.t UUID vector)
    (entries : list VectorStoreEntry) : list PointStruct :=
  omap (fun e => match PyDict.get embeddings (id e) with
                 | Some v => Some {| point_id := id e;
                                     point_vector := v;
                                     point_payload := model_dump e |}
                 | None => None
                 end) entries.

(** Whether the vectors of the points have the given size. *)
Definition sizes_fit (size : nat) (pts : list PointStruct) : bool :=
  forallb (fun p => has_size size (point_vector p)) pts.

(** A point as the collection keeps it. *)
Definition point_item (p : PointStruct) : string * (vector * Payload) :=
  (point_id p, (point_vector p, point_payload p)).

(** No collection holds two points with one identity. *)
Definition unique_identities (s : Backend) : Prop :=
  ∀ name c, s !! name = Some c → NoDup (PyDict.keys (points c)).

(** The limit [list] asks the backend for: its own when it is given and
    not zero, the count of the collection otherwise (line 272). *)
Definition effective_limit (limit_ : option Z) (c : Collection) : Z :=
  match limit_ with
  | Some z => if (z =? 0)%Z then Z.of_nat (length (points c)) else z
  | None => Z.of_nat (length (points c))
  end.

(** The conditions a point has to meet to be listed under [where_]: those
    of the translation of [where_], none when there is no filter. *)
Definition conditions_of (where_ : option WhereQuery)
  : list FieldCondition :=
  match where_ with
  | Some w => must (_create_qdrant_filter w)
  | None => []
  end.

(** Whether the payload of a point meets all of these conditions. *)
Definition meets (engine : Engine) (where_ : option WhereQuery)
    (p : string * (vector * Payload)) : bool :=
  forallb (fun condition => matches condition (snd (snd p)))
    (conditions_of where_).

(** The page [list] returns from a collection: of the points that meet the
    conditions, in the engine's order, those after the first [offset_], at
    most as many as the effective limit. *)
Definition page (engine : Engine) (where_ : option WhereQuery)
    (limit_ : option Z) (offset_ : Z) (c : Collection)
  : list VectorStoreEntry :=
  map (fun p => model_validate (snd (snd p)))
    (take (Z.to_nat (effective_limit limit_ c))
       (drop (Z.to_nat offset_)
          (scan (filter (fun p => meets engine where_ p) (points c))))).

(** * Properties *)

(** ** Dictionaries *)

Section DictFacts.
Context {K V : Type} `{EqDecision K}.

Lemma get_set_eq (d : PyDict.t K V) key value : PyDict.get (PyDict.set d key value) key = Some value.
Proof.
  induction d as [|[k v] rest IH]; simpl.
  - by rewrite decide_True.
  - destruct (decide (k = key)) as [->|Hne]; simpl.
    + by rewrite decide_True.
    + by rewrite decide_False.
Qed.

Lemma get_set_ne (d : PyDict.t K V) key key' value :
  key ≠ key' → PyDict.get (PyDict.set d key value) key' = PyDict.get d key'.
Proof.
  intros Hne. induction d as [|[k v] rest IH]; simpl.
  - by rewrite decide_False.
  - destruct (decide (k = key)) as [->|Hk]; simpl.
    + by rewrite !decide_False.
    + destruct (decide (k = key')); [done | apply IH].
Qed.

Lemma get_None_not_key (d : PyDict.t K V) key : PyDict.get d key = None ↔ key ∉ PyDict.keys d.
Proof.
  induction d as [|[k v] rest IH]; simpl.
  - split; [intros _; apply not_elem_of_nil | done].
  - destruct (decide (k = key)) as [->|Hne].
    + split; [done | intros H; exfalso; apply H; left].
    + rewrite IH, not_elem_of_cons. split; [by intros ?; split; [congruence|] | by intros [_ ?]].
Qed.

Lemma set_fresh (d : PyDict.t K V) key value :
  key ∉ PyDict.keys d → PyDict.set d key value = d ++ [(key, value)].
Proof.
  induction d as [|[k v] rest IH]; simpl; [done|].
  rewrite not_elem_of_cons. intros [Hne Hnot].
  rewrite decide_False; [|done]. by rewrite IH.
Qed.

Lemma keys_set_fresh (d : PyDict.t K V) key value :
  key ∉ PyDict.keys d → PyDict.keys (PyDict.set d key value) = PyDict.keys d ++ [key].
Proof.
  intros H. rewrite set_fresh; [|done]. unfold PyDict.keys. by rewrite map_app.
Qed.

Lemma dict_get_remove_ne (d : PyDict.t K V) key key' :
  key ≠ key' → PyDict.get (PyDict.remove d key) key' = PyDict.get d key'.
Proof.
  intros Hne. induction d as [|[k v] rest IH]; simpl; [done|].
  destruct (decide (k = key)) as [->|Hk]; simpl.
  - by rewrite decide_False.
  - destruct (decide (k = key')); [done | apply IH].
Qed.

Lemma dict_remove_absent (d : PyDict.t K V) key : PyDict.get d key = None → PyDict.remove d key = d.
Proof.
  induction d as [|[k v] rest IH]; simpl; [done|].
  destruct (decide (k = key)); [done|]. intros H. by rewrite IH.
Qed.

(** Extending a dictionary by pairs whose keys are new and pairwise
    distinct appends them in order. *)
Lemma update_fresh (d other : PyDict.t K V) :
  NoDup (PyDict.keys d ++ PyDict.keys other) → PyDict.update d other = d ++ other.
Proof.
  unfold PyDict.update. revert d.
  induction other as [|[k v] rest IH]; intros d Hnd; simpl.
  - by rewrite app_nil_r.
  - assert (k ∉ PyDict.keys d) as Hk.
    { apply NoDup_app in Hnd as (_ & Hdisj & _).
      intros Hin. apply (Hdisj k Hin). left. }
    rewrite set_fresh; [|done].
    rewrite IH.
    + by rewrite <- app_assoc.
    + unfold PyDict.keys in *. rewrite map_app. simpl.
      rewrite <- app_assoc. exact Hnd.
Qed.

End DictFacts.

(** ** The options overlay *)

Lemma get_update_comprehension (g : string → pyval) (ks : list string)
    (d : PyDict.t string pyval) (key : string) :
  PyDict.get (PyDict.update d (map (fun k => (k, g k)) ks)) key
  = if bool_decide (key ∈ ks) then Some (g key) else PyDict.get d key.
Proof.
  unfold PyDict.update. revert d.
  induction ks as [|k rest IH]; intros d; simpl; [done|].
  rewrite IH. destruct (decide (key ∈ rest)) as [Hin|Hnin].
  - rewrite !bool_decide_eq_true_2; [done | by right | done].
  - rewrite (bool_decide_eq_false_2 (key ∈ rest)); [|done].
    destruct (decide (k = key)) as [->|Hne].
    + rewrite bool_decide_eq_true_2; [|by left]. apply get_set_eq.
    + rewrite bool_decide_eq_false_2.
      * by apply get_set_ne.
      * rewrite elem_of_cons. intros [?|?]; [congruence | done].
Qed.

Lemma get_Some_key (d : PyDict.t string pyval) (key : string) (v : pyval) :
  PyDict.get d key = Some v → key ∈ PyDict.keys d.
Proof.
  intros H. destruct (decide (key ∈ PyDict.keys d)) as [|Hn]; [done|].
  apply get_None_not_key in Hn. congruence.
Qed.

(** Field by field, [or_] takes the override's value unless it is the
    sentinel. *)
Lemma or_field (base override : LLMOptions) (key : string) (vb vo : pyval) :
  PyDict.get (fields base) key = Some vb →
  PyDict.get (fields override) key = Some vo →
  PyDict.get (fields (or_ base override)) key
  = Some (if isinstance_NotGiven vo then vb else vo).
Proof.
  intros Hb Ho. unfold or_, updated_dict, PyDict.of_pairs, asdict. simpl.
  rewrite get_update_comprehension.
  rewrite bool_decide_eq_true_2; [|by eapply get_Some_key].
  unfold updated_value, getitem, PyDict.get_default. rewrite Hb, Ho.
  by destruct (isinstance_NotGiven vo).
Qed.

(** C3. [merge(base, override)] takes, field by field, the override's value
    unless that value is the "not given" sentinel (an explicit [None] is
    taken), and the base's value when it is; the result is a new object and
    every object that existed before, the operands among them, is left as
    it was.  Overlaying [{k: unset, max_distance: 0.2}] on
    [{k: 5, max_distance: unset}] gives [{k: 5, max_distance: 0.2}]. *)
Theorem or_overlay (h : heap) (rb ro : ref) (base override : LLMOptions) :
  h !! rb = Some base →
  h !! ro = Some override →
  ∃ h' r,
    __or__ h rb ro = Some (h', r)
    ∧ h !! r = None
    ∧ h' !! r = Some (or_ base override)
    ∧ (∀ r0 o, h !! r0 = Some o → h' !! r0 = Some o)
    ∧ (∀ key vb vo,
         PyDict.get (fields base) key = Some vb →
         PyDict.get (fields override) key = Some vo →
         (vo ≠ VNotGiven →
          PyDict.get (fields (or_ base override)) key = Some vo)
         ∧ (vo = VNotGiven →
            PyDict.get (fields (or_ base override)) key = Some vb))
    ∧ (∀ key vb,
         PyDict.get (fields base) key = Some vb →
         PyDict.get (fields override) key = Some VNone →
         PyDict.get (fields (or_ base override)) key = Some VNone)
    ∧ (∀ unset,
         or_ (VectorStoreOptions (VInt 5) unset)
             (VectorStoreOptions VNotGiven (VFloat float_0_2))
         = VectorStoreOptions (VInt 5) (VFloat float_0_2)).
Proof.
  intros Hb Ho. exists (h ++ [or_ base override]), (length h).
  unfold __or__, alloc. rewrite Hb, Ho.
  split; [done|]. split; [by apply lookup_ge_None_2|].
  split; [by apply list_lookup_middle|].
  split; [intros r0 o Hr0; by apply lookup_app_l_Some|].
  split.
  - intros key vb vo Hkb Hko.
    pose proof (or_field base override key vb vo Hkb Hko) as Hf.
    split; intros Hvo.
    + rewrite Hf. by destruct vo.
    + rewrite Hf. by subst vo.
  - split.
    + intros key vb Hkb Hko.
      by rewrite (or_field base override key vb VNone Hkb Hko).
    + intros unset. reflexivity.
Qed.

Lemma or_overlay_witness :
  ∃ h' r,
    __or__ [VectorStoreOptions (VInt 5) VNotGiven;
            VectorStoreOptions VNotGiven (VFloat float_0_2)] 0 1
    = Some (h', r)
    ∧ h' !! r = Some (VectorStoreOptions (VInt 5) (VFloat float_0_2))
    ∧ h' !! 0 = Some (VectorStoreOptions (VInt 5) VNotGiven)
    ∧ h' !! 1 = Some (VectorStoreOptions VNotGiven (VFloat float_0_2)).
Proof.
  destruct (or_overlay
              [VectorStoreOptions (VInt 5) VNotGiven;
               VectorStoreOptions VNotGiven (VFloat float_0_2)] 0 1
              (VectorStoreOptions (VInt 5) VNotGiven)
              (VectorStoreOptions VNotGiven (VFloat float_0_2))
              eq_refl eq_refl)
    as (h' & r & Hor & _ & Hnew & Hold & _ & _ & Hex).
  exists h', r. split; [exact Hor|].
  split; [by rewrite Hnew, Hex|].
  split; apply Hold; reflexivity.
Defined.

(** ** Freezing and reconstructing a store *)

(** A store that embeds text is rebuilt as it was. *)
Lemma reconstruct_text_store (self : QdrantVectorStore) :
  _embedding_type self = TEXT → _reconstruct (__reduce__ self) = self.
Proof.
  destruct self as [[params] name embedder ty dist opts]. simpl.
  intros ->. reflexivity.
Qed.

(** C1. [_reconstruct] never receives the embedding type, so the rebuilt
    store embeds text whatever the original embedded: a store that embeds
    images accepts an image-only entry, its reconstruction fails on it. *)
Theorem reduce_drops_embedding_type :
  (∀ self, _embedding_type (_reconstruct (__reduce__ self)) = TEXT)
  ∧ _embedding_type (sample_store IMAGE) = IMAGE
  ∧ fst (store (sample_store IMAGE) [image_entry "2"] ∅) = Ok tt
  ∧ fst (store (_reconstruct (__reduce__ (sample_store IMAGE)))
           [image_entry "2"] ∅) = Raise RuntimeError.
Proof.
  split; [by intros self|]. split; [reflexivity|].
  split; vm_compute; reflexivity.
Qed.

(** ** The score threshold of [retrieve] *)

Lemma score_threshold_unset (merged : LLMOptions) (v : pyval) :
  getattr merged "max_distance" = Ok v →
  v = VNone ∨ v = VNotGiven →
  score_threshold_of merged = Ok None.
Proof.
  intros Hget Hv. unfold score_threshold_of. rewrite Hget.
  by destruct Hv as [-> | ->].
Qed.

Lemma score_threshold_nonzero (merged : LLMOptions) (f : float) :
  getattr merged "max_distance" = Ok (VFloat f) →
  PrimFloat.eqb f 0%float = false →
  score_threshold_of merged = Ok (Some (VFloat (PrimFloat.sub 1%float f))).
Proof.
  intros Hget Hf. unfold score_threshold_of. rewrite Hget. simpl.
  by rewrite Hf.
Qed.

(** A distance bound of [0.2] becomes the score threshold [0.8]. *)
Lemma score_threshold_example :
  score_threshold_of (VectorStoreOptions (VInt 5) (VFloat float_0_2))
  = Ok (Some (VFloat float_0_8)).
Proof. vm_compute. reflexivity. Qed.

(** C2. With [max_distance] set to [0.0] the merged options carry a
    concrete value of the interval, yet [retrieve] queries the backend
    without a score threshold, where [1 - max_distance] is [1.0]. *)
Theorem retrieve_zero_distance_no_threshold :
  getattr (merged_options (sample_store TEXT)
             (Some (VectorStoreOptions VNotGiven (VFloat 0%float))))
    "max_distance" = Ok (VFloat 0%float)
  ∧ retrieve_request (sample_store TEXT) "cat"
      (Some (VectorStoreOptions VNotGiven (VFloat 0%float)))
    = Ok {| collection_name := "docs";
            query := Some [1%float; 0%float];
            query_filter := None;
            limit := VInt 5;
            offset := None;
            score_threshold := None |}
  ∧ one_minus (VFloat 0%float) = Ok (VFloat 1%float).
Proof. repeat split; vm_compute; reflexivity. Qed.

(** ** Operations on a collection the backend does not have *)

Section Absent.
Context {engine : Engine}.

Lemma retrieve_absent (self : QdrantVectorStore) (text_ : string)
    (options : option LLMOptions) (request : QueryRequest) (s : Backend) :
  s !! _index_name self = None →
  retrieve_request self text_ options = Ok request →
  retrieve self text_ options s = (Raise ValueError, s).
Proof.
  intros Hs Hreq. unfold retrieve, async_def, bind, lift. rewrite Hreq.
  assert (collection_name request = _index_name self) as Hname.
  { unfold retrieve_request in Hreq.
    destruct (score_threshold_of _); [|done].
    destruct (first_item _); [|done].
    destruct (getattr _ "k"); [|done]. by inversion Hreq. }
  unfold query_points. by rewrite Hname, Hs.
Qed.

(** C6. When the backend has no collection of the store's name, [list]
    returns the empty sequence whatever the filter, the limit and the
    offset, raises nothing and leaves the backend as it was. *)
Theorem list_absent (self : QdrantVectorStore) (where_ : option WhereQuery)
    (limit_ : option Z) (offset_ : Z) (s : Backend) :
  s !! _index_name self = None →
  list_ self where_ limit_ offset_ s = (Ok [], s).
Proof.
  intros Hs. unfold list_, async_def, bind, collection_exists.
  rewrite Hs. rewrite bool_decide_eq_false_2; [done|].
  by intros [? ?].
Qed.

End Absent.

Lemma list_absent_witness :
  (∅ : Backend) !! _index_name (sample_store TEXT) = None
  ∧ list_ (engine := embedded_engine) (sample_store TEXT)
      (Some (DScalar "a" (SInt 1) DEmpty)) (Some 3%Z) 7%Z ∅
    = (Ok [], ∅).
Proof.
  split; [reflexivity|].
  apply (list_absent (engine := embedded_engine) (sample_store TEXT)
           (Some (DScalar "a" (SInt 1) DEmpty)) (Some 3%Z) 7%Z ∅).
  reflexivity.
Defined.

(** C4. [retrieve] asks the backend without checking that the collection
    exists: on a store never written to, the backend's [ValueError] reaches
    the caller, where [list] on the same store returns the empty
    sequence. *)
Theorem retrieve_absent_raises :
  (∅ : Backend) !! _index_name (sample_store TEXT) = None
  ∧ retrieve (engine := embedded_engine) (sample_store TEXT) "cat" None ∅
    = (Raise ValueError, ∅)
  ∧ retrieve (engine := server_engine) (sample_store TEXT) "cat" None ∅
    = (Raise ValueError, ∅)
  ∧ list_ (engine := embedded_engine) (sample_store TEXT) None None 0%Z ∅
    = (Ok [], ∅).
Proof.
  split; [reflexivity|].
  split; [by eapply retrieve_absent|].
  split; [by eapply retrieve_absent|].
  by apply list_absent.
Qed.

(** ** [store] *)

Lemma text_entries_none (entries : list VectorStoreEntry) :
  Forall (fun e => has_payload TEXT e = false) entries →
  text_entries entries = [].
Proof.
  unfold text_entries. induction 1 as [|e rest He _ IH]; [done|].
  unfold has_payload in He. destruct (text e) eqn:Hp.
  - by rewrite bool_decide_eq_true_2 in He.
  - cbn. rewrite Hp. exact IH.
Qed.

Lemma image_entries_none (entries : list VectorStoreEntry) :
  Forall (fun e => has_payload IMAGE e = false) entries →
  image_entries entries = [].
Proof.
  unfold image_entries. induction 1 as [|e rest He _ IH]; [done|].
  unfold has_payload in He. destruct (image_bytes e) eqn:Hp.
  - by rewrite bool_decide_eq_true_2 in He.
  - cbn. rewrite Hp. exact IH.
Qed.

(** No eligible entry, no embedding. *)
Lemma create_embeddings_none (embedder : Embedder) (ty : EmbeddingType)
    (entries : list VectorStoreEntry) :
  Forall (fun e => has_payload ty e = false) entries →
  _create_embeddings embedder ty entries = [].
Proof.
  intros Hall. unfold _create_embeddings. destruct ty.
  - by rewrite text_entries_none.
  - by rewrite image_entries_none.
Qed.

(** C10. When the entries are not empty, none of them carries the payload
    of the store's embedding type and the collection does not exist,
    [store] raises an error (the first value of the empty embedding map is
    asked for) and the backend is left without the collection. *)
Theorem store_no_embeddings_raises (self : QdrantVectorStore)
    (entries : list VectorStoreEntry) (s : Backend) :
  entries ≠ [] →
  Forall (fun e => has_payload (_embedding_type self) e = false) entries →
  s !! _index_name self = None →
  _create_embeddings (_embedder self) (_embedding_type self) entries = []
  ∧ store self entries s = (Raise RuntimeError, s)
  ∧ snd (store self entries s) !! _index_name self = None.
Proof.
  intros Hne Hall Hs.
  pose proof (create_embeddings_none (_embedder self) _ _ Hall) as Hemb.
  split; [exact Hemb|].
  assert (store self entries s = (Raise RuntimeError, s)) as Hstore.
  { unfold store. destruct entries as [|e rest]; [done|].
    rewrite Hemb. unfold async_def, bind, collection_exists.
    rewrite bool_decide_eq_false_2; [done|].
    rewrite Hs. by intros [? ?]. }
  split; [exact Hstore|]. by rewrite Hstore.
Qed.

Lemma store_no_embeddings_raises_witness :
  [image_entry "2"] ≠ []
  ∧ Forall (fun e => has_payload TEXT e = false) [image_entry "2"]
  ∧ store (sample_store TEXT) [image_entry "2"] ∅ = (Raise RuntimeError, ∅).
Proof.
  assert ([image_entry "2"] ≠ []) as Hne by discriminate.
  assert (Forall (fun e => has_payload TEXT e = false) [image_entry "2"])
    as Hall by (repeat constructor).
  split; [exact Hne|]. split; [exact Hall|].
  exact (proj1 (proj2 (store_no_embeddings_raises (sample_store TEXT)
                         [image_entry "2"] ∅ Hne Hall eq_refl))).
Defined.

(** Uploading points leaves every other identity as it was. *)
Lemma upsert_other (new_points : list PointStruct)
    (pts : PyDict.t string (vector * Payload)) (j : string) :
  j ∉ map point_id new_points →
  PyDict.get (fold_left upsert new_points pts) j = PyDict.get pts j.
Proof.
  revert pts. induction new_points as [|p rest IH]; intros pts Hj; [done|].
  simpl in *. apply not_elem_of_cons in Hj as [Hne Hj].
  rewrite IH; [|done]. unfold upsert. by apply get_set_ne.
Qed.

(** Once the collection exists, [store] writes only entries that have an
    embedding, and raises nothing when their vectors have the size of the
    collection. *)
Lemma store_present (self : QdrantVectorStore)
    (entries : list VectorStoreEntry) (s : Backend) (c : Collection) :
  s !! _index_name self = Some c →
  ∃ c', snd (store self entries s) !! _index_name self = Some c'
        ∧ (∀ j, PyDict.get (_create_embeddings (_embedder self)
                              (_embedding_type self) entries) j = None →
                PyDict.get (points c') j = PyDict.get (points c) j)
        ∧ (sizes_fit (vectors_size c)
             (entry_points
                (_create_embeddings (_embedder self) (_embedding_type self)
                   entries) entries) = true →
           fst (store self entries s) = Ok tt).
Proof.
  intros Hs. destruct entries as [|e rest].
  { exists c. by repeat split. }
  set (entries := e :: rest).
  set (embeddings := _create_embeddings (_embedder self)
                       (_embedding_type self) entries).
  destruct (sizes_fit (vectors_size c) (entry_points embeddings entries))
    eqn:Hfit.
  - exists {| vectors_size := vectors_size c;
              vectors_distance := vectors_distance c;
              points := fold_left upsert (entry_points embeddings entries)
                          (points c) |}.
    assert (store self entries s
            = (Ok tt,
               <[_index_name self :=
                   {| vectors_size := vectors_size c;
                      vectors_distance := vectors_distance c;
                      points := fold_left upsert
                                  (entry_points embeddings entries)
                                  (points c) |}]> s))
      as Hstore.
    { unfold store, entries, async_def, bind, collection_exists.
      rewrite bool_decide_eq_true_2; [|by rewrite Hs]. cbn [negb].
      unfold upload_points, ret. rewrite Hs.
      fold entries. fold embeddings.
      change (forallb _ _) with
        (sizes_fit (vectors_size c) (entry_points embeddings entries)).
      by rewrite Hfit. }
    rewrite Hstore. cbn [fst snd]. split; [apply lookup_insert_eq|].
    split; [|done].
    intros j Hj. cbn [points]. apply upsert_other.
    intros Hin. apply list_elem_of_fmap in Hin as (p & -> & Hp).
    apply list_elem_of_omap in Hp as (e' & _ & He').
    destruct (PyDict.get embeddings (id e')) eqn:Hget; [|done].
    inversion He'; subst p. simpl in Hj. congruence.
  - exists c.
    assert (store self entries s = (Raise QdrantException, s)) as Hstore.
    { unfold store, entries, async_def, bind, collection_exists.
      rewrite bool_decide_eq_true_2; [|by rewrite Hs]. cbn [negb].
      unfold upload_points, ret. rewrite Hs.
      fold entries. fold embeddings.
      change (forallb _ _) with
        (sizes_fit (vectors_size c) (entry_points embeddings entries)).
      by rewrite Hfit. }
    rewrite Hstore. by repeat split.
Qed.

(** C5. An image-only entry given to a store that embeds text has no
    embedding.  Beside an entry that has one it is skipped and only the
    other is listed; once the collection exists it is skipped alone; but
    alone on a store never written to, [store] raises instead of skipping
    it. *)
Theorem store_skip_fails_on_fresh_store :
  PyDict.mem (_create_embeddings sample_embedder TEXT [image_entry "2"]) "2"
  = false
  ∧ store (sample_store TEXT) [image_entry "2"] ∅ = (Raise RuntimeError, ∅)
  ∧ store (sample_store TEXT) [image_entry "2"] one_entry_backend
    = (Ok tt, one_entry_backend)
  ∧ fst (store (sample_store TEXT)
           [image_entry "2"; text_entry "3" "a dog"] ∅) = Ok tt
  ∧ fst (list_ (engine := embedded_engine) (sample_store TEXT) None None 0%Z
           (snd (store (sample_store TEXT)
                   [image_entry "2"; text_entry "3" "a dog"] ∅)))
    = Ok [text_entry "3" "a dog"].
Proof. repeat split; vm_compute; reflexivity. Qed.

(** ** [remove] *)

Section Remove.
Context {engine : Engine}.

(** Deleting raises nothing but [KeyError]. *)
Lemma delete_ids_result (ids : list string)
    (pts : PyDict.t string (vector * Payload)) :
  fst (delete_ids pts ids) = Ok tt ∨ fst (delete_ids pts ids) = Raise KeyError.
Proof.
  revert pts. induction ids as [|i rest IH]; intros pts; simpl; [by left|].
  destruct (PyDict.mem pts i); [apply IH|].
  destruct strict_delete; [by right | apply IH].
Qed.

(** Deleting touches no identity outside the list. *)
Lemma delete_ids_other (ids : list string)
    (pts : PyDict.t string (vector * Payload)) (j : string) :
  j ∉ ids →
  PyDict.get (snd (delete_ids pts ids)) j = PyDict.get pts j.
Proof.
  revert pts. induction ids as [|i rest IH]; intros pts Hj; simpl; [done|].
  apply not_elem_of_cons in Hj as [Hne Hj].
  destruct (PyDict.mem pts i).
  - rewrite IH; [|done]. by apply dict_get_remove_ne.
  - destruct strict_delete; [done | by apply IH].
Qed.

(** Deleting identities that are all unknown changes nothing. *)
Lemma delete_ids_unknown (ids : list string)
    (pts : PyDict.t string (vector * Payload)) :
  (∀ i, i ∈ ids → PyDict.get pts i = None) →
  snd (delete_ids pts ids) = pts.
Proof.
  induction ids as [|i rest IH]; intros Hall; simpl; [done|].
  unfold PyDict.mem. rewrite (Hall i); [|by left].
  destruct strict_delete; [done|].
  apply IH. intros i' Hi'. apply Hall. by right.
Qed.

(** C9, as amended.  On a store whose collection exists, [remove] raises
    nothing, whether or not the identities are stored; the entry of every
    identity outside the list is as it was; and when none of the
    identities is stored the collection, hence its count, is unchanged. *)
Theorem remove_present (self : QdrantVectorStore) (ids : list UUID)
    (s : Backend) (c : Collection) :
  s !! _index_name self = Some c →
  ∃ c',
    fst (remove self ids s) = Ok tt
    ∧ snd (remove self ids s) !! _index_name self = Some c'
    ∧ (∀ j, j ∉ ids →
            PyDict.get (points c') j = PyDict.get (points c) j)
    ∧ ((∀ i, i ∈ ids → PyDict.get (points c) i = None) →
       remove self ids s = (Ok tt, s)
       ∧ c' = c
       ∧ length (points c') = length (points c)).
Proof.
  intros Hs.
  exists {| vectors_size := vectors_size c;
            vectors_distance := vectors_distance c;
            points := snd (delete_ids (points c) ids) |}.
  assert (remove self ids s
          = (Ok tt,
             <[_index_name self :=
                 {| vectors_size := vectors_size c;
                    vectors_distance := vectors_distance c;
                    points := snd (delete_ids (points c) ids) |}]> s))
    as Hremove.
  { unfold remove, async_def, suppress, delete. rewrite Hs.
    destruct (delete_ids_result ids (points c)) as [Hr|Hr];
      destruct (delete_ids (points c) ids) as [r pts];
      simpl in Hr; subst r; reflexivity. }
  rewrite Hremove. simpl.
  split; [done|]. split; [apply lookup_insert_eq|].
  split; [intros j Hj; by apply delete_ids_other|].
  intros Hall. rewrite (delete_ids_unknown ids (points c) Hall).
  assert ({| vectors_size := vectors_size c;
             vectors_distance := vectors_distance c;
             points := points c |} = c) as Hc by (by destruct c).
  rewrite Hc. split; [|done]. f_equal. by apply insert_id.
Qed.

End Remove.

Lemma remove_present_witness :
  one_entry_backend !! _index_name (sample_store TEXT)
  = Some {| vectors_size := 2;
            vectors_distance := COSINE;
            points := [("1", ([1%float; 0%float],
                              model_dump (text_entry "1" "the cat sat")))] |}
  ∧ remove (engine := embedded_engine) (sample_store TEXT) ["9"]
      one_entry_backend
    = (Ok tt, one_entry_backend).
Proof.
  assert (one_entry_backend !! _index_name (sample_store TEXT)
          = Some {| vectors_size := 2;
                    vectors_distance := COSINE;
                    points := [("1", ([1%float; 0%float],
                                      model_dump
                                        (text_entry "1" "the cat sat")))] |})
    as Hs by reflexivity.
  split; [exact Hs|].
  destruct (remove_present (engine := embedded_engine) (sample_store TEXT)
              ["9"] one_entry_backend _ Hs) as (c' & _ & _ & _ & Hall).
  apply Hall. intros i Hi. apply list_elem_of_singleton in Hi. by subst i.
Defined.

(** C9, as stated, fails on a store whose collection does not exist: the
    identity is not present, yet [remove] raises [ValueError], with either
    engine. *)
Lemma remove_missing_collection_raises :
  (∅ : Backend) !! _index_name (sample_store TEXT) = None
  ∧ remove (engine := embedded_engine) (sample_store TEXT) ["9"] ∅
    = (Raise ValueError, ∅)
  ∧ remove (engine := server_engine) (sample_store TEXT) ["9"] ∅
    = (Raise ValueError, ∅).
Proof. repeat split; vm_compute; reflexivity. Qed.

(** ** [list] *)

Section Listing.
Context {engine : Engine}.

Lemma as_count_of_nat (n : nat) : as_count (VInt (Z.of_nat n)) = Ok n.
Proof.
  unfold as_count. rewrite (proj2 (Z.leb_le 0 (Z.of_nat n))); [|lia].
  by rewrite Nat2Z.id.
Qed.

Lemma as_count_nonneg (z : Z) :
  (0 ≤ z)%Z → as_count (VInt z) = Ok (Z.to_nat z).
Proof.
  intros Hz. unfold as_count. by rewrite (proj2 (Z.leb_le 0 z)).
Qed.

(** The points that pass the filter of the request are those that meet
    the conditions of the translation. *)
Lemma passes_meets (where_ : option WhereQuery)
    (p : string * (vector * Payload)) :
  passes (qdrant_filter_of where_) p = meets engine where_ p.
Proof.
  unfold meets, conditions_of.
  destruct where_ as [w|]; [|done]. by destruct w.
Qed.

Lemma filter_passes_meets (where_ : option WhereQuery)
    (pts : list (string * (vector * Payload))) :
  filter (fun p => passes (qdrant_filter_of where_) p) pts
  = filter (fun p => meets engine where_ p) pts.
Proof.
  apply list_filter_iff. intros p. by rewrite passes_meets.
Qed.

(** C8. On a store whose collection exists, [list] without a limit asks
    the backend for as many entries as the collection counts at that
    moment, under the translation of the filter (no filter when it is
    absent or empty) and under the given offset.  What it returns is taken
    from the points whose payload satisfies every condition of the
    translated filter: in the backend's order, the first [offset] of these
    are skipped and at most the count of the collection taken. *)
Theorem list_unset_limit (self : QdrantVectorStore)
    (where_ : option WhereQuery) (offset_ : Z) (s : Backend)
    (c : Collection) (n : nat) :
  s !! _index_name self = Some c →
  count (_index_name self) s = (Ok n, s) →
  list_request self where_ None offset_ s
  = (Ok {| collection_name := _index_name self;
           query := None;
           query_filter :=
             match where_ with
             | Some (DScalar _ _ _ as w) | Some (DNested _ _ _ as w) =>
                 Some (_create_qdrant_filter w)
             | Some DEmpty | None => None
             end;
           limit := VInt (Z.of_nat n);
           offset := Some offset_;
           score_threshold := None |}, s)
  ∧ ((0 ≤ offset_)%Z →
     list_ self where_ None offset_ s
     = (Ok (map (fun p => model_validate (snd (snd p)))
              (take n
                 (drop (Z.to_nat offset_)
                    (scan
                       (filter
                          (fun p =>
                             forallb
                               (fun condition =>
                                  matches condition (snd (snd p)))
                               match where_ with
                               | Some w => must (_create_qdrant_filter w)
                               | None => []
                               end)
                          (points c)))))), s)).
Proof.
  intros Hs Hcount.
  assert (list_request self where_ None offset_ s
          = (Ok {| collection_name := _index_name self;
                   query := None;
                   query_filter := qdrant_filter_of where_;
                   limit := VInt (Z.of_nat n);
                   offset := Some offset_;
                   score_threshold := None |}, s)) as Hreq.
  { unfold list_request, bind. by rewrite Hcount. }
  split.
  { rewrite Hreq. do 3 f_equal. destruct where_ as [w|]; [|done].
    by destruct w. }
  intros Hoff.
  unfold list_, async_def, bind, collection_exists.
  rewrite bool_decide_eq_true_2; [|by rewrite Hs]. cbn [negb].
  rewrite Hreq. unfold query_points.
  cbn [collection_name limit offset query query_filter default].
  rewrite Hs, as_count_of_nat, as_count_nonneg; [|done].
  unfold ret. do 2 f_equal.
  rewrite List.skipn_map, List.firstn_map, List.map_map.
  by rewrite filter_passes_meets.
Qed.

End Listing.

Lemma list_unset_limit_witness :
  list_ (engine := embedded_engine) (sample_store TEXT)
    (Some (DScalar "kind" (SStr "pet") DEmpty)) None 1%Z kind_backend
  = (Ok [kind_entry "3" "one bird" "pet"; kind_entry "4" "a dog" "pet"],
     kind_backend).
Proof.
  assert ((0 ≤ 1)%Z) as Hoff by lia.
  etrans;
    [exact (proj2
              (list_unset_limit (engine := embedded_engine)
                 (sample_store TEXT)
                 (Some (DScalar "kind" (SStr "pet") DEmpty)) 1%Z
                 kind_backend kind_collection 4 eq_refl eq_refl) Hoff)|].
  vm_compute. reflexivity.
Defined.

(** ** Filter translation *)

Lemma string_app_assoc (a b c : string) :
  (a +:+ b) +:+ c = a +:+ (b +:+ c).
Proof.
  induction a as [|ch a IH]; [done|].
  change (String ch ((a +:+ b) +:+ c) = String ch (a +:+ b +:+ c)).
  by rewrite IH.
Qed.

Lemma leaves_paths_nonempty (d : nested_dict) :
  Forall (fun l => fst l ≠ []) (leaves d).
Proof.
  induction d as [|k v rest IH|k sub IHsub rest IH]; simpl.
  - constructor.
  - by constructor.
  - apply Forall_app. split; [|done].
    apply List.Forall_map. by apply Forall_forall.
Qed.

Lemma key_under_singleton (parent_key : option string) (k : string) :
  key_under parent_key [k] = child_key parent_key k.
Proof. reflexivity. Qed.

Lemma key_under_cons (parent_key : option string) (k : string)
    (path : list string) :
  path ≠ [] →
  key_under parent_key (k :: path)
  = key_under (Some (child_key parent_key k)) path.
Proof.
  intros Hne. destruct path as [|k' path]; [done|].
  unfold key_under, dotted. destruct parent_key as [p|]; [|done].
  change (String.concat "." (k :: k' :: path))
    with (k +:+ "." +:+ String.concat "." (k' :: path)).
  unfold child_key. by rewrite !string_app_assoc.
Qed.

Lemma keys_under_nested (parent_key : option string) (k : string)
    (A : Type) (f : string → scalar → A) (ls : list (list string * scalar)) :
  Forall (fun l => fst l ≠ []) ls →
  map (fun l => f (key_under parent_key (fst l)) (snd l))
    (map (fun l => (k :: fst l, snd l)) ls)
  = map (fun l => f (key_under (Some (child_key parent_key k)) (fst l))
                    (snd l)) ls.
Proof.
  intros Hne. rewrite List.map_map. apply List.map_ext_Forall.
  eapply Forall_impl; [exact Hne|]. intros l Hl. simpl.
  by rewrite key_under_cons.
Qed.

(** Flattening appends one item per leaf, under its dotted path, as long
    as no two paths collide. *)
Lemma flatten_items_leaves (d : nested_dict) :
  ∀ (parent_key : option string) (items : PyDict.t string scalar),
    NoDup (PyDict.keys items
           ++ map (fun l => key_under parent_key (fst l)) (leaves d)) →
    flatten_items items d parent_key
    = items ++ map (fun l => (key_under parent_key (fst l), snd l))
                 (leaves d).
Proof.
  induction d as [|k v rest IH|k sub IHsub rest IH];
    intros parent_key items Hnd; simpl in *.
  - by rewrite app_nil_r.
  - rewrite key_under_singleton in *.
    assert (child_key parent_key k ∉ PyDict.keys items) as Hk.
    { apply NoDup_app in Hnd as (_ & Hdisj & _).
      intros Hin. apply (Hdisj _ Hin). left. }
    rewrite set_fresh; [|done]. rewrite IH.
    + by rewrite <- app_assoc.
    + unfold PyDict.keys in *. rewrite map_app. simpl.
      by rewrite <- app_assoc.
  - pose proof (leaves_paths_nonempty sub) as Hne.
    rewrite map_app in Hnd. rewrite map_app.
    rewrite (keys_under_nested parent_key k string (fun key _ => key))
      in Hnd; [|done].
    rewrite (keys_under_nested parent_key k (string * scalar)
               (fun key v => (key, v))); [|done].
    set (ck := child_key parent_key k) in *.
    set (sub_keys := map (fun l => key_under (Some ck) (fst l)) (leaves sub))
      in *.
    set (sub_items := map (fun l => (key_under (Some ck) (fst l), snd l))
                        (leaves sub)).
    assert (PyDict.keys sub_items = sub_keys) as Hkeys.
    { unfold PyDict.keys, sub_items, sub_keys. by rewrite List.map_map. }
    rewrite app_assoc in Hnd.
    pose proof Hnd as Hnd'.
    apply NoDup_app in Hnd' as (Hnd1 & _ & _).
    pose proof Hnd1 as Hnd1'.
    apply NoDup_app in Hnd1' as (_ & _ & Hsub).
    rewrite (IHsub (Some ck) []); [|exact Hsub].
    rewrite app_nil_l. fold sub_items.
    rewrite update_fresh; [|by rewrite Hkeys].
    rewrite IH.
    + by rewrite <- app_assoc.
    + assert (PyDict.keys (items ++ sub_items)
              = PyDict.keys items ++ sub_keys) as ->
        by (rewrite <- Hkeys; apply map_app).
      exact Hnd.
Qed.

(** C7, as amended.  For a nested equality filter whose leaves have
    pairwise distinct dotted paths, the translation is the conjunction of
    exactly one condition per leaf, in order, each on the key "metadata."
    followed by the dotted path of the leaf and on the value of the leaf. *)
Theorem create_qdrant_filter_leaves (where_ : WhereQuery) :
  NoDup (map (fun l => dotted (fst l)) (leaves where_)) →
  must (_create_qdrant_filter where_) = map leaf_condition (leaves where_)
  ∧ length (must (_create_qdrant_filter where_)) = length (leaves where_).
Proof.
  intros Hnd.
  assert (must (_create_qdrant_filter where_)
          = map leaf_condition (leaves where_)) as Hmust.
  { unfold _create_qdrant_filter, flatten_dict. simpl.
    rewrite (flatten_items_leaves where_ None []); [|exact Hnd].
    simpl. by rewrite List.map_map. }
  split; [exact Hmust|]. by rewrite Hmust, length_map.
Qed.

Lemma create_qdrant_filter_leaves_witness :
  must (_create_qdrant_filter
          (DScalar "a" (SInt 1) (DScalar "b" (SInt 2) DEmpty)))
  = [ {| key := "metadata.a"; match_value := SInt 1 |};
      {| key := "metadata.b"; match_value := SInt 2 |} ]
  ∧ must (_create_qdrant_filter
            (DNested "category" (DScalar "sub" (SStr "x") DEmpty) DEmpty))
    = [ {| key := "metadata.category.sub"; match_value := SStr "x" |} ].
Proof.
  split.
  - refine (proj1 (create_qdrant_filter_leaves
                     (DScalar "a" (SInt 1) (DScalar "b" (SInt 2) DEmpty))
                     _)).
    apply (bool_decide_unpack _). vm_compute. exact I.
  - refine (proj1 (create_qdrant_filter_leaves
                     (DNested "category" (DScalar "sub" (SStr "x") DEmpty)
                        DEmpty) _)).
    apply (bool_decide_unpack _). vm_compute. exact I.
Defined.

(** C7, as stated, fails when two leaves share a dotted path: the filter
    [{"a.b": 1, "a": {"b": 2}}] has two leaves and is translated to a
    single condition. *)
Lemma create_qdrant_filter_collision :
  length (leaves (DScalar "a.b" (SInt 1)
                    (DNested "a" (DScalar "b" (SInt 2) DEmpty) DEmpty))) = 2
  ∧ must (_create_qdrant_filter
            (DScalar "a.b" (SInt 1)
               (DNested "a" (DScalar "b" (SInt 2) DEmpty) DEmpty)))
    = [ {| key := "metadata.a.b"; match_value := SInt 2 |} ]
  ∧ must (_create_qdrant_filter
            (DScalar "a.b" (SInt 1)
               (DNested "a" (DScalar "b" (SInt 2) DEmpty) DEmpty)))
    ≠ map leaf_condition
        (leaves (DScalar "a.b" (SInt 1)
                   (DNested "a" (DScalar "b" (SInt 2) DEmpty) DEmpty))).
Proof.
  split; [vm_compute; reflexivity|].
  split; [vm_compute; reflexivity|].
  intros Heq. vm_compute in Heq. discriminate.
Qed.

(** * Further properties *)

(** ** Dictionaries with distinct keys *)

Section DictMoreFacts.
Context {K V : Type} `{EqDecision K}.

Lemma key_in_get (d : PyDict.t K V) (k : K) :
  k ∈ PyDict.keys d → ∃ v, PyDict.get d k = Some v.
Proof.
  intros Hin. destruct (PyDict.get d k) as [v|] eqn:Hget; [by exists v|].
  by apply get_None_not_key in Hget.
Qed.

Lemma get_Some_key' (d : PyDict.t K V) (k : K) (v : V) :
  PyDict.get d k = Some v → k ∈ PyDict.keys d.
Proof.
  intros Hget. destruct (decide (k ∈ PyDict.keys d)) as [|Hn]; [done|].
  apply get_None_not_key in Hn. congruence.
Qed.

Lemma get_in (d : PyDict.t K V) (k : K) (v : V) :
  PyDict.get d k = Some v → (k, v) ∈ d.
Proof.
  induction d as [|[k' v'] rest IH]; simpl; [done|].
  destruct (decide (k' = k)) as [->|Hne].
  - intros [= ->]. left.
  - intros Hget. right. by apply IH.
Qed.

Lemma in_get_NoDup (d : PyDict.t K V) (k : K) (v : V) :
  NoDup (PyDict.keys d) → (k, v) ∈ d → PyDict.get d k = Some v.
Proof.
  induction d as [|[k' v'] rest IH]; simpl; intros Hnd Hin.
  - by apply elem_of_nil in Hin.
  - apply NoDup_cons in Hnd as [Hk' Hnd].
    apply elem_of_cons in Hin as [[= -> ->]|Hin].
    + by rewrite decide_True.
    + rewrite decide_False; [by apply IH|].
      intros ->. apply Hk'.
      apply (list_elem_of_fmap_2 fst) in Hin. exact Hin.
Qed.

Lemma keys_set_present (d : PyDict.t K V) (k : K) (v : V) :
  k ∈ PyDict.keys d → PyDict.keys (PyDict.set d k v) = PyDict.keys d.
Proof.
  induction d as [|[k' v'] rest IH]; simpl; intros Hin.
  - by apply elem_of_nil in Hin.
  - destruct (decide (k' = k)) as [->|Hne]; [done|]. simpl.
    apply elem_of_cons in Hin as [->|Hin]; [done|]. by rewrite IH.
Qed.

Lemma NoDup_keys_set (d : PyDict.t K V) (k : K) (v : V) :
  NoDup (PyDict.keys d) → NoDup (PyDict.keys (PyDict.set d k v)).
Proof.
  intros Hnd. destruct (decide (k ∈ PyDict.keys d)) as [Hin|Hnin].
  - by rewrite keys_set_present.
  - rewrite keys_set_fresh; [|done]. apply NoDup_app.
    split; [done|]. split; [|apply NoDup_singleton].
    intros x Hx Hx'. apply list_elem_of_singleton in Hx'. by subst x.
Qed.

Lemma keys_remove_subseteq (d : PyDict.t K V) (k x : K) :
  x ∈ PyDict.keys (PyDict.remove d k) → x ∈ PyDict.keys d.
Proof.
  induction d as [|[k' v'] rest IH]; simpl; [done|].
  destruct (decide (k' = k)) as [->|Hne]; simpl.
  - intros Hx. by right.
  - intros Hx. apply elem_of_cons in Hx as [->|Hx]; [left | right; by apply IH].
Qed.

Lemma NoDup_keys_remove (d : PyDict.t K V) (k : K) :
  NoDup (PyDict.keys d) → NoDup (PyDict.keys (PyDict.remove d k)).
Proof.
  induction d as [|[k' v'] rest IH]; simpl; [done|].
  intros Hnd. apply NoDup_cons in Hnd as [Hk' Hnd].
  destruct (decide (k' = k)) as [->|Hne]; [done|]. simpl.
  apply NoDup_cons. split; [|by apply IH].
  intros Hin. apply Hk'. by eapply keys_remove_subseteq.
Qed.

Lemma get_remove_eq (d : PyDict.t K V) (k : K) :
  NoDup (PyDict.keys d) → PyDict.get (PyDict.remove d k) k = None.
Proof.
  induction d as [|[k' v'] rest IH]; simpl; [done|].
  intros Hnd. apply NoDup_cons in Hnd as [Hk' Hnd].
  destruct (decide (k' = k)) as [->|Hne].
  - by apply get_None_not_key.
  - simpl. rewrite decide_False; [by apply IH | done].
Qed.

Lemma length_remove_present (d : PyDict.t K V) (k : K) (v : V) :
  PyDict.get d k = Some v → S (length (PyDict.remove d k)) = length d.
Proof.
  induction d as [|[k' v'] rest IH]; simpl; [done|].
  destruct (decide (k' = k)) as [->|Hne]; [done|].
  intros Hget. simpl. by rewrite IH.
Qed.

Lemma length_set_present (d : PyDict.t K V) (k : K) (v : V) :
  k ∈ PyDict.keys d → length (PyDict.set d k v) = length d.
Proof.
  intros Hin. rewrite <- (length_map fst (PyDict.set d k v)).
  rewrite <- (length_map fst d).
  fold (PyDict.keys (PyDict.set d k v)) (PyDict.keys d).
  by rewrite keys_set_present.
Qed.

(** A comprehension over distinct keys is the list of its items. *)
Lemma of_pairs_NoDup (pairs : list (K * V)) :
  NoDup (PyDict.keys pairs) → PyDict.of_pairs pairs = pairs.
Proof.
  intros Hnd. unfold PyDict.of_pairs. by rewrite update_fresh.
Qed.

Lemma get_of_pairs_in (pairs : list (K * V)) (d : PyDict.t K V)
    (k : K) (v : V) :
  PyDict.get (PyDict.update d pairs) k = Some v →
  PyDict.get d k = Some v ∨ (k, v) ∈ pairs.
Proof.
  unfold PyDict.update. revert d.
  induction pairs as [|[k' v'] rest IH]; intros d Hget; simpl in *;
    [by left|].
  apply IH in Hget as [Hget|Hin]; [|right; by right].
  destruct (decide (k' = k)) as [->|Hne].
  - rewrite get_set_eq in Hget. injection Hget as ->. right. left.
  - rewrite get_set_ne in Hget; [by left | done].
Qed.

End DictMoreFacts.

(** ** More on the options overlay *)

Lemma updated_value_both (self_dict other_dict : PyDict.t string pyval)
    (key : string) (vs vo : pyval) :
  PyDict.get self_dict key = Some vs →
  PyDict.get other_dict key = Some vo →
  updated_value self_dict other_dict key
  = if isinstance_NotGiven vo then vs else vo.
Proof.
  intros Hs Ho. unfold updated_value, getitem, PyDict.get_default.
  rewrite Hs, Ho. by destruct (isinstance_NotGiven vo).
Qed.

Lemma updated_value_missing (self_dict other_dict : PyDict.t string pyval)
    (key : string) (vs : pyval) :
  PyDict.get self_dict key = Some vs →
  PyDict.get other_dict key = None →
  updated_value self_dict other_dict key = vs.
Proof.
  intros Hs Ho. unfold updated_value, getitem, PyDict.get_default.
  by rewrite Hs, Ho.
Qed.

Lemma or_fields_NoDup (self other : LLMOptions) :
  NoDup (PyDict.keys (fields self)) →
  fields (or_ self other)
  = map (fun key => (key, updated_value (fields self) (fields other) key))
      (PyDict.keys (fields self)).
Proof.
  intros Hnd. unfold or_, updated_dict, asdict. simpl.
  apply of_pairs_NoDup. unfold PyDict.keys at 1.
  rewrite List.map_map. simpl. by rewrite List.map_id.
Qed.

Lemma or_keys (self other : LLMOptions) :
  NoDup (PyDict.keys (fields self)) →
  PyDict.keys (fields (or_ self other)) = PyDict.keys (fields self).
Proof.
  intros Hnd. rewrite or_fields_NoDup; [|done].
  unfold PyDict.keys at 1. rewrite List.map_map. simpl. apply List.map_id.
Qed.

(** X1. The merged options have exactly the fields of the left operand, in
    its order: a field that only the right operand has is dropped, and a
    field that the right operand lacks keeps the left operand's value. *)
Theorem or_fields_of_self (self other : LLMOptions) :
  NoDup (PyDict.keys (fields self)) →
  PyDict.keys (fields (or_ self other)) = PyDict.keys (fields self)
  ∧ (∀ key, PyDict.get (fields self) key = None →
            PyDict.get (fields (or_ self other)) key = None)
  ∧ (∀ key, PyDict.get (fields other) key = None →
            PyDict.get (fields (or_ self other)) key
            = PyDict.get (fields self) key).
Proof.
  intros Hnd. split; [by apply or_keys|].
  assert (∀ key, PyDict.get (fields self) key = None →
                 PyDict.get (fields (or_ self other)) key = None) as Hnone.
  { intros key Hget. apply get_None_not_key. rewrite or_keys; [|done].
    by apply get_None_not_key. }
  split; [exact Hnone|].
  intros key Ho. destruct (PyDict.get (fields self) key) as [vs|] eqn:Hs;
    [|by apply Hnone].
  unfold or_, updated_dict, PyDict.of_pairs, asdict. simpl.
  rewrite get_update_comprehension.
  rewrite bool_decide_eq_true_2; [|by eapply get_Some_key].
  by rewrite (updated_value_missing _ _ _ vs).
Qed.

Lemma or_fields_of_self_witness :
  NoDup (PyDict.keys (fields (VectorStoreOptions (VInt 5) VNone)))
  ∧ PyDict.keys
      (fields (or_ (VectorStoreOptions (VInt 5) VNone)
                 {| class_name := "Other";
                    fields := [("k", VInt 3); ("extra", VBool true)] |}))
    = ["k"; "max_distance"]
  ∧ PyDict.get
      (fields (or_ (VectorStoreOptions (VInt 5) VNone)
                 {| class_name := "Other";
                    fields := [("k", VInt 3); ("extra", VBool true)] |}))
      "extra" = None
  ∧ PyDict.get
      (fields (or_ (VectorStoreOptions (VInt 5) VNone)
                 {| class_name := "Other";
                    fields := [("k", VInt 3); ("extra", VBool true)] |}))
      "max_distance" = Some VNone.
Proof.
  assert (NoDup (PyDict.keys (fields (VectorStoreOptions (VInt 5) VNone))))
    as Hnd by (apply (bool_decide_unpack _); vm_compute; exact I).
  destruct (or_fields_of_self (VectorStoreOptions (VInt 5) VNone)
              {| class_name := "Other";
                 fields := [("k", VInt 3); ("extra", VBool true)] |} Hnd)
    as (Hkeys & Hnone & Hkeep).
  split; [exact Hnd|]. split; [exact Hkeys|].
  split; [by apply Hnone|]. by rewrite Hkeep.
Defined.

(** X2. Overlaying is associative on options of one class: overlaying [c]
    on the overlay of [b] on [a] gives the overlay on [a] of [c] overlaid
    on [b], so that in a chain the rightmost given value of a field
    wins. *)
Theorem or_assoc (a b c : LLMOptions) :
  NoDup (PyDict.keys (fields a)) →
  PyDict.keys (fields b) = PyDict.keys (fields a) →
  PyDict.keys (fields c) = PyDict.keys (fields a) →
  or_ (or_ a b) c = or_ a (or_ b c).
Proof.
  intros Hnd Hb Hc.
  assert (NoDup (PyDict.keys (fields b))) as Hndb by (by rewrite Hb).
  assert (class_name (or_ (or_ a b) c) = class_name (or_ a (or_ b c)))
    as Hclass by reflexivity.
  assert (fields (or_ (or_ a b) c) = fields (or_ a (or_ b c))) as Hfields.
  { rewrite (or_fields_NoDup (or_ a b) c); [|by rewrite or_keys].
    rewrite (or_fields_NoDup a (or_ b c)); [|done].
    rewrite or_keys; [|done].
    apply List.map_ext_in. intros key Hin. f_equal.
    apply list_elem_of_In in Hin.
    destruct (key_in_get (fields a) key Hin) as [va Ha].
    destruct (key_in_get (fields b) key) as [vb Hvb]; [by rewrite Hb|].
    destruct (key_in_get (fields c) key) as [vc Hvc]; [by rewrite Hc|].
    rewrite (updated_value_both _ _ key _ vc (or_field a b key va vb Ha Hvb)
               Hvc).
    rewrite (updated_value_both _ _ key va _ Ha
               (or_field b c key vb vc Hvb Hvc)).
    by destruct vc, vb. }
  destruct (or_ (or_ a b) c), (or_ a (or_ b c)). simpl in *. congruence.
Qed.

Lemma or_assoc_witness :
  or_ (or_ (VectorStoreOptions (VInt 5) VNone)
           (VectorStoreOptions (VInt 3) VNotGiven))
      (VectorStoreOptions VNotGiven (VFloat float_0_2))
  = or_ (VectorStoreOptions (VInt 5) VNone)
        (or_ (VectorStoreOptions (VInt 3) VNotGiven)
             (VectorStoreOptions VNotGiven (VFloat float_0_2))).
Proof.
  apply or_assoc; [|reflexivity|reflexivity].
  apply (bool_decide_unpack _). vm_compute. exact I.
Defined.

(** X3. The sentinel never wins: a field of the merged options holds
    "not given" only when both operands hold it. *)
Theorem or_sentinel_only_from_both (base override : LLMOptions)
    (key : string) (vb vo : pyval) :
  PyDict.get (fields base) key = Some vb →
  PyDict.get (fields override) key = Some vo →
  PyDict.get (fields (or_ base override)) key = Some VNotGiven →
  vb = VNotGiven ∧ vo = VNotGiven.
Proof.
  intros Hb Ho Hr. rewrite (or_field base override key vb vo Hb Ho) in Hr.
  destruct vo; simpl in Hr; try discriminate. by injection Hr as ->.
Qed.

Lemma or_sentinel_only_from_both_witness :
  PyDict.get
    (fields (or_ (VectorStoreOptions VNotGiven VNone)
               (VectorStoreOptions VNotGiven (VFloat float_0_2)))) "k"
  = Some VNotGiven
  ∧ VNotGiven = VNotGiven ∧ VNotGiven = VNotGiven.
Proof.
  split; [reflexivity|].
  apply (or_sentinel_only_from_both
           (VectorStoreOptions VNotGiven VNone)
           (VectorStoreOptions VNotGiven (VFloat float_0_2)) "k");
    reflexivity.
Defined.

(** X4. An override that gives nothing changes nothing: when every field
    of the right operand holds "not given", the overlay is the left
    operand. *)
Theorem or_all_not_given (base override : LLMOptions) :
  NoDup (PyDict.keys (fields base)) →
  (∀ key v, PyDict.get (fields override) key = Some v → v = VNotGiven) →
  or_ base override = base.
Proof.
  intros Hnd Hall.
  assert (fields (or_ base override) = fields base) as Hfields.
  { rewrite or_fields_NoDup; [|done]. unfold PyDict.keys.
    rewrite List.map_map.
    rewrite <- (List.map_id (fields base)) at 2.
    apply List.map_ext_in. intros [key v] Hin. simpl.
    apply list_elem_of_In in Hin.
    pose proof (in_get_NoDup _ _ _ Hnd Hin) as Hget. f_equal.
    destruct (PyDict.get (fields override) key) as [vo|] eqn:Ho.
    - rewrite (updated_value_both _ _ key v vo Hget Ho).
      by rewrite (Hall key vo Ho).
    - by apply updated_value_missing. }
  destruct base as [cls flds]. unfold or_ in *. simpl in *.
  by rewrite Hfields.
Qed.

Lemma or_all_not_given_witness :
  or_ (VectorStoreOptions (VInt 5) (VFloat float_0_2))
      (VectorStoreOptions VNotGiven VNotGiven)
  = VectorStoreOptions (VInt 5) (VFloat float_0_2).
Proof.
  apply or_all_not_given.
  - apply (bool_decide_unpack _). vm_compute. exact I.
  - intros key v. simpl.
    destruct (decide ("k" = key)); [by intros [= <-]|].
    destruct (decide ("max_distance" = key)); [by intros [= <-]|].
    discriminate.
Defined.

(** ** [LLMOptions.dict] *)

Lemma get_map_values (g : pyval → pyval) (d : PyDict.t string pyval)
    (key : string) :
  PyDict.get (map (fun kv : string * pyval => (fst kv, g (snd kv))) d) key
  = g <$> PyDict.get d key.
Proof.
  induction d as [|[k v] rest IH]; simpl; [done|].
  destruct (decide (k = key)); [done | exact IH].
Qed.

Lemma dict_get (_not_given : pyval) (self : LLMOptions) (key : string) :
  NoDup (PyDict.keys (fields self)) →
  PyDict.get (dict_ _not_given self) key
  = provider_value _not_given <$> PyDict.get (fields self) key.
Proof.
  intros Hnd. unfold dict_, asdict. rewrite of_pairs_NoDup.
  - apply get_map_values.
  - unfold PyDict.keys in *. rewrite List.map_map. simpl. exact Hnd.
Qed.

(** X5. Whatever the options hold, a value of the dictionary that [dict]
    returns is either the provider's "not given" value or a value of that
    field which is neither [None] nor an instance of [NotGiven]. *)
Theorem dict_values_given (_not_given : pyval) (self : LLMOptions)
    (key : string) (v : pyval) :
  PyDict.get (dict_ _not_given self) key = Some v →
  v = _not_given
  ∨ (is_None v = false ∧ isinstance_NotGiven v = false
     ∧ (key, v) ∈ fields self).
Proof.
  intros Hget. unfold dict_, PyDict.of_pairs, asdict in Hget.
  apply get_of_pairs_in in Hget as [Hget|Hin]; [done|].
  apply list_elem_of_fmap in Hin as ([k x] & Heq & Hin).
  simpl in Heq. injection Heq as -> ->.
  unfold provider_value.
  destruct (is_None x || isinstance_NotGiven x) eqn:Hx; [by left|].
  right. apply orb_false_iff in Hx as [Hn Hg]. by repeat split.
Qed.

Lemma dict_values_given_witness :
  PyDict.get (dict_ (VStr "NOT_GIVEN")
                (VectorStoreOptions VNotGiven (VFloat float_0_2)))
    "max_distance" = Some (VFloat float_0_2)
  ∧ (VFloat float_0_2 = VStr "NOT_GIVEN"
     ∨ (is_None (VFloat float_0_2) = false
        ∧ isinstance_NotGiven (VFloat float_0_2) = false
        ∧ ("max_distance", VFloat float_0_2)
          ∈ fields (VectorStoreOptions VNotGiven (VFloat float_0_2)))).
Proof.
  split; [reflexivity|].
  apply (dict_values_given (VStr "NOT_GIVEN")
           (VectorStoreOptions VNotGiven (VFloat float_0_2))
           "max_distance").
  reflexivity.
Defined.

(** X6. What a provider receives from merged options: a field that the
    override gives concretely is passed as given; a field that the override
    leaves "not given" is passed as the base has it; and a field that the
    override sets to [None] is passed as the provider's "not given" value,
    whatever the base holds. *)
Theorem dict_of_overlay (_not_given : pyval) (base override : LLMOptions)
    (key : string) (vb vo : pyval) :
  NoDup (PyDict.keys (fields base)) →
  PyDict.get (fields base) key = Some vb →
  PyDict.get (fields override) key = Some vo →
  PyDict.get (dict_ _not_given (or_ base override)) key
  = Some (provider_value _not_given
            (if isinstance_NotGiven vo then vb else vo))
  ∧ (vo = VNone →
     PyDict.get (dict_ _not_given (or_ base override)) key
     = Some _not_given)
  ∧ (vo = VNotGiven →
     PyDict.get (dict_ _not_given (or_ base override)) key
     = Some (provider_value _not_given vb))
  ∧ (is_None vo = false → isinstance_NotGiven vo = false →
     PyDict.get (dict_ _not_given (or_ base override)) key = Some vo).
Proof.
  intros Hnd Hb Ho.
  assert (PyDict.get (dict_ _not_given (or_ base override)) key
          = Some (provider_value _not_given
                    (if isinstance_NotGiven vo then vb else vo))) as Hget.
  { rewrite dict_get; [|by rewrite or_keys].
    by rewrite (or_field base override key vb vo Hb Ho). }
  split; [exact Hget|]. rewrite Hget.
  split; [by intros ->|]. split; [by intros ->|].
  intros Hn Hg. rewrite Hg. unfold provider_value. by rewrite Hn, Hg.
Qed.

Lemma dict_of_overlay_witness :
  PyDict.get
    (dict_ (VStr "NOT_GIVEN")
       (or_ (VectorStoreOptions (VInt 5) (VFloat float_0_2))
            (VectorStoreOptions VNotGiven VNone))) "max_distance"
  = Some (VStr "NOT_GIVEN")
  ∧ PyDict.get
      (dict_ (VStr "NOT_GIVEN")
         (or_ (VectorStoreOptions (VInt 5) (VFloat float_0_2))
              (VectorStoreOptions VNotGiven VNone))) "k"
    = Some (VInt 5).
Proof.
  assert (NoDup (PyDict.keys
                   (fields (VectorStoreOptions (VInt 5)
                              (VFloat float_0_2))))) as Hnd
    by (apply (bool_decide_unpack _); vm_compute; exact I).
  split.
  - apply (proj1 (proj2 (dict_of_overlay (VStr "NOT_GIVEN")
                           (VectorStoreOptions (VInt 5) (VFloat float_0_2))
                           (VectorStoreOptions VNotGiven VNone)
                           "max_distance" (VFloat float_0_2) VNone
                           Hnd eq_refl eq_refl))).
    reflexivity.
  - exact (proj1 (dict_of_overlay (VStr "NOT_GIVEN")
                    (VectorStoreOptions (VInt 5) (VFloat float_0_2))
                    (VectorStoreOptions VNotGiven VNone)
                    "k" (VInt 5) VNotGiven Hnd eq_refl eq_refl)).
Defined.

(** ** More on freezing and reconstructing *)

(** X7. For a store that embeds text, freezing with [__reduce__] and
    rebuilding with [_reconstruct] gives the store back, attribute by
    attribute. *)
Theorem reconstruct_text_round_trip (self : QdrantVectorStore) :
  _embedding_type self = TEXT →
  _reconstruct (__reduce__ self) = self
  ∧ __reduce__ (_reconstruct (__reduce__ self)) = __reduce__ self.
Proof.
  intros Hty. destruct self as [[params] name embedder ty dist opts].
  simpl in Hty. subst ty. by split.
Qed.

Lemma reconstruct_text_round_trip_witness :
  _reconstruct (__reduce__ (sample_store TEXT)) = sample_store TEXT.
Proof.
  exact (proj1 (reconstruct_text_round_trip (sample_store TEXT) eq_refl)).
Defined.

(** X8. Whatever the store embeds, the rebuilt store has the client
    parameters, index name, embedder, distance method and default options
    of the original, and freezing it again gives the same arguments: only
    the embedding type can differ. *)
Theorem reconstruct_keeps_other_attributes (self : QdrantVectorStore) :
  _init_options (_client (_reconstruct (__reduce__ self)))
  = _init_options (_client self)
  ∧ _index_name (_reconstruct (__reduce__ self)) = _index_name self
  ∧ _embedder (_reconstruct (__reduce__ self)) = _embedder self
  ∧ _distance_method (_reconstruct (__reduce__ self))
    = _distance_method self
  ∧ default_options (_reconstruct (__reduce__ self)) = default_options self
  ∧ __reduce__ (_reconstruct (__reduce__ self)) = __reduce__ self
  ∧ _reconstruct (__reduce__ (_reconstruct (__reduce__ self)))
    = _reconstruct (__reduce__ self).
Proof. by destruct self as [[params] name embedder ty dist opts]. Qed.

(** ** More on [store] *)

Lemma model_validate_dump (e : VectorStoreEntry) :
  model_validate (model_dump e) = e.
Proof. by destruct e. Qed.

Lemma fold_upsert_update (pts : list PointStruct)
    (d : PyDict.t string (vector * Payload)) :
  fold_left upsert pts d = PyDict.update d (map point_item pts).
Proof.
  unfold PyDict.update. revert d.
  induction pts as [|p rest IH]; intros d; [done|]. simpl. apply IH.
Qed.

Lemma NoDup_fold_upsert (pts : list PointStruct)
    (d : PyDict.t string (vector * Payload)) :
  NoDup (PyDict.keys d) → NoDup (PyDict.keys (fold_left upsert pts d)).
Proof.
  revert d. induction pts as [|p rest IH]; intros d Hnd; [done|].
  simpl. apply IH. by apply NoDup_keys_set.
Qed.

Lemma create_embeddings_nil (embedder : Embedder) (ty : EmbeddingType) :
  _create_embeddings embedder ty [] = [].
Proof. by destruct ty. Qed.

(** What [store] does when the collection is missing and some entry has an
    embedding: the collection is created, and the points are written if
    their vectors have its size. *)
Lemma store_eval_absent (self : QdrantVectorStore)
    (entries : list VectorStoreEntry) (s : Backend)
    (i : UUID) (v : vector) (rest : PyDict.t UUID vector) :
  s !! _index_name self = None →
  _create_embeddings (_embedder self) (_embedding_type self) entries
  = (i, v) :: rest →
  store self entries s
  = if sizes_fit (length v) (entry_points ((i, v) :: rest) entries)
    then
      (Ok tt,
       <[_index_name self :=
           {| vectors_size := length v;
              vectors_distance := _distance_method self;
              points := fold_left upsert
                          (entry_points ((i, v) :: rest) entries) [] |}]> s)
    else
      (Raise QdrantException,
       <[_index_name self :=
           {| vectors_size := length v;
              vectors_distance := _distance_method self;
              points := [] |}]> s).
Proof.
  intros Hs Hemb. destruct entries as [|e entries'].
  { by rewrite create_embeddings_nil in Hemb. }
  unfold store. rewrite Hemb.
  unfold async_def, bind, collection_exists.
  rewrite bool_decide_eq_false_2; [|rewrite Hs; by intros [? ?]].
  cbn [negb lift next_iter PyDict.values map snd].
  unfold create_collection. rewrite Hs.
  unfold upload_points. rewrite lookup_insert_eq.
  cbn [vectors_size vectors_distance points].
  change (forallb _ _) with
    (sizes_fit (length v) (entry_points ((i, v) :: rest) (e :: entries'))).
  destruct (sizes_fit _ _); [|done].
  by rewrite insert_insert_eq.
Qed.

(** What [store] does when the collection exists: the points are written
    if their vectors have its size, and nothing is otherwise. *)
Lemma store_eval_present (self : QdrantVectorStore)
    (entries : list VectorStoreEntry) (s : Backend) (c : Collection) :
  s !! _index_name self = Some c →
  entries ≠ [] →
  store self entries s
  = if sizes_fit (vectors_size c)
         (entry_points
            (_create_embeddings (_embedder self) (_embedding_type self)
               entries) entries)
    then
      (Ok tt,
       <[_index_name self :=
           {| vectors_size := vectors_size c;
              vectors_distance := vectors_distance c;
              points :=
                fold_left upsert
                  (entry_points
                     (_create_embeddings (_embedder self)
                        (_embedding_type self) entries) entries)
                  (points c) |}]> s)
    else (Raise QdrantException, s).
Proof.
  intros Hs Hne. destruct entries as [|e entries']; [done|].
  unfold store, async_def, bind, collection_exists.
  rewrite bool_decide_eq_true_2; [|by rewrite Hs].
  cbn [negb]. unfold ret, upload_points. rewrite Hs.
  change (forallb _ _) with
    (sizes_fit (vectors_size c)
       (entry_points
          (_create_embeddings (_embedder self) (_embedding_type self)
             (e :: entries')) (e :: entries'))).
  by destruct (sizes_fit _ _).
Qed.

(** X9. The first write creates the collection: when the collection is
    missing and the embedding map is not empty, the backend has the
    collection after [store], sized to the first vector of the embedding
    map, with the store's distance method, and its other collections are
    as before.  When the vectors to write all have that size, [store]
    succeeds and the collection holds the points of the entries that have
    an embedding and nothing else. *)
Theorem store_creates_collection (self : QdrantVectorStore)
    (entries : list VectorStoreEntry) (s : Backend)
    (i : UUID) (v : vector) (rest : PyDict.t UUID vector) :
  s !! _index_name self = None →
  _create_embeddings (_embedder self) (_embedding_type self) entries
  = (i, v) :: rest →
  ∃ c,
    snd (store self entries s) !! _index_name self = Some c
    ∧ vectors_size c = length v
    ∧ vectors_distance c = _distance_method self
    ∧ (∀ name, name ≠ _index_name self →
               snd (store self entries s) !! name = s !! name)
    ∧ (sizes_fit (length v) (entry_points ((i, v) :: rest) entries) = true →
       fst (store self entries s) = Ok tt
       ∧ points c = fold_left upsert
                      (entry_points ((i, v) :: rest) entries) []).
Proof.
  intros Hs Hemb.
  rewrite (store_eval_absent self entries s i v rest Hs Hemb).
  destruct (sizes_fit _ _).
  - eexists. split; [apply lookup_insert_eq|].
    split; [done|]. split; [done|]. split; [|done].
    intros name Hne. simpl. by rewrite lookup_insert_ne.
  - eexists. split; [apply lookup_insert_eq|].
    split; [done|]. split; [done|]. split; [|done].
    intros name Hne. simpl. by rewrite lookup_insert_ne.
Qed.

Lemma store_creates_collection_witness :
  fst (store (sample_store IMAGE) [image_entry "2"] ∅) = Ok tt
  ∧ snd (store (sample_store IMAGE) [image_entry "2"] ∅)
    !! _index_name (sample_store IMAGE)
    = Some {| vectors_size := 3;
              vectors_distance := COSINE;
              points := [("2", ([0%float; 1%float; 0%float],
                                model_dump (image_entry "2")))] |}.
Proof.
  assert ((∅ : Backend) !! _index_name (sample_store IMAGE) = None)
    as Hs by reflexivity.
  destruct (store_creates_collection (sample_store IMAGE)
              [image_entry "2"] ∅ "2" [0%float; 1%float; 0%float] []
              Hs eq_refl)
    as (c & Hc & Hsize & Hdist & _ & Hfit).
  destruct (Hfit eq_refl) as [Hok Hpts].
  split; [exact Hok|].
  rewrite Hc. destruct c as [size dist pts]. simpl in *.
  by rewrite Hsize, Hdist, Hpts.
Defined.

(** X10. On a collection that exists, [store] of a non-empty list never
    touches what the collection keeps for an identity that has no vector
    in the embedding map, and never changes the size or distance of the
    collection.  It raises nothing when every vector to write has the
    size of the collection; when one has another size the backend refuses
    the upload and [store] raises the exception its docstring names. *)
Theorem store_on_present_collection (self : QdrantVectorStore)
    (entries : list VectorStoreEntry) (s : Backend) (c : Collection) :
  s !! _index_name self = Some c →
  entries ≠ [] →
  ∃ c',
    snd (store self entries s) = <[_index_name self := c']> s
    ∧ vectors_size c' = vectors_size c
    ∧ vectors_distance c' = vectors_distance c
    ∧ (∀ j, PyDict.get (_create_embeddings (_embedder self)
                          (_embedding_type self) entries) j = None →
            PyDict.get (points c') j = PyDict.get (points c) j)
    ∧ (sizes_fit (vectors_size c)
         (entry_points
            (_create_embeddings (_embedder self) (_embedding_type self)
               entries) entries) = true →
       fst (store self entries s) = Ok tt)
    ∧ (sizes_fit (vectors_size c)
         (entry_points
            (_create_embeddings (_embedder self) (_embedding_type self)
               entries) entries) = false →
       fst (store self entries s) = Raise QdrantException).
Proof.
  intros Hs Hne. rewrite (store_eval_present self entries s c Hs Hne).
  destruct (sizes_fit _ _) eqn:Hfit.
  - eexists. split; [reflexivity|]. split; [done|]. split; [done|].
    split; [|by split].
    intros j Hj. cbn [points]. apply upsert_other.
    intros Hin. apply list_elem_of_fmap in Hin as (p & -> & Hp).
    apply list_elem_of_omap in Hp as (e' & _ & He').
    destruct (PyDict.get _ (id e')) eqn:Hget; [|done].
    injection He' as <-. simpl in Hj. congruence.
  - exists c. split; [by rewrite insert_id|]. by repeat split.
Qed.

Lemma store_on_present_collection_witness :
  fst (store (sample_store TEXT)
         [image_entry "2"; text_entry "3" "a dog"] one_entry_backend)
  = Ok tt
  ∧ fst (store (sample_store IMAGE) [image_entry "2"] one_entry_backend)
    = Raise QdrantException.
Proof.
  split.
  - destruct (store_on_present_collection (sample_store TEXT)
                [image_entry "2"; text_entry "3" "a dog"] one_entry_backend
                {| vectors_size := 2;
                   vectors_distance := COSINE;
                   points := [("1", ([1%float; 0%float],
                                     model_dump
                                       (text_entry "1" "the cat sat")))] |}
                eq_refl) as (c' & _ & _ & _ & _ & Hok & _); [discriminate|].
    apply Hok. reflexivity.
  - destruct (store_on_present_collection (sample_store IMAGE)
                [image_entry "2"] one_entry_backend
                {| vectors_size := 2;
                   vectors_distance := COSINE;
                   points := [("1", ([1%float; 0%float],
                                     model_dump
                                       (text_entry "1" "the cat sat")))] |}
                eq_refl) as (c' & _ & _ & _ & _ & _ & Hfail); [discriminate|].
    apply Hfail. reflexivity.
Defined.

(** X11. Storing an entry whose identity the collection already holds,
    with a vector of the collection's size, replaces the vector and
    payload kept for it: the identities kept, hence the count, are as
    before, and so is what is kept for every other identity. *)
Theorem store_replaces_entry (self : QdrantVectorStore)
    (e : VectorStoreEntry) (s : Backend) (c : Collection)
    (old : vector * Payload) (v : vector) :
  s !! _index_name self = Some c →
  PyDict.get (points c) (id e) = Some old →
  PyDict.get (_create_embeddings (_embedder self) (_embedding_type self)
                [e]) (id e) = Some v →
  length v = vectors_size c →
  ∃ c',
    store self [e] s = (Ok tt, <[_index_name self := c']> s)
    ∧ PyDict.get (points c') (id e) = Some (v, model_dump e)
    ∧ PyDict.keys (points c') = PyDict.keys (points c)
    ∧ length (points c') = length (points c)
    ∧ ∀ j, j ≠ id e → PyDict.get (points c') j = PyDict.get (points c) j.
Proof.
  intros Hs Hold Hemb Hsize.
  rewrite (store_eval_present self [e] s c Hs); [|done].
  unfold entry_points. cbn [omap list_omap]. rewrite Hemb.
  unfold sizes_fit, has_size. cbn [forallb point_vector andb].
  rewrite (proj2 (Nat.eqb_eq _ _) Hsize). cbn [andb].
  eexists. split; [reflexivity|].
  cbn [points fold_left upsert point_id point_vector point_payload].
  assert (id e ∈ PyDict.keys (points c)) as Hin by (by eapply get_Some_key').
  split; [apply get_set_eq|].
  split; [by apply keys_set_present|].
  split; [by apply length_set_present|].
  intros j Hj. by apply get_set_ne.
Qed.

Lemma store_replaces_entry_witness :
  ∃ c',
    store (sample_store TEXT) [text_entry "1" "a dog"] one_entry_backend
    = (Ok tt, <["docs" := c']> one_entry_backend)
    ∧ PyDict.get (points c') "1"
      = Some ([1%float; 0%float], model_dump (text_entry "1" "a dog"))
    ∧ length (points c') = 1.
Proof.
  destruct (store_replaces_entry (sample_store TEXT)
              (text_entry "1" "a dog") one_entry_backend
              {| vectors_size := 2;
                 vectors_distance := COSINE;
                 points := [("1", ([1%float; 0%float],
                                   model_dump
                                     (text_entry "1" "the cat sat")))] |}
              ([1%float; 0%float], model_dump (text_entry "1" "the cat sat"))
              [1%float; 0%float] eq_refl eq_refl eq_refl eq_refl)
    as (c' & Hstore & Hget & _ & Hlen & _).
  exists c'. split; [exact Hstore|]. split; [exact Hget | exact Hlen].
Defined.

(** ** More on [list] and [retrieve] *)

Section Reading.
Context {engine : Engine}.

Lemma query_points_state (q : QueryRequest) (s : Backend) :
  snd (query_points q s) = s.
Proof.
  unfold query_points. destruct (s !! collection_name q) as [c|]; [|done].
  destruct (as_count (limit q)); [|done].
  destruct (as_count _); [|done].
  destruct (query q) as [v|]; [|done].
  by destruct (has_size (vectors_size c) v).
Qed.

Lemma list_request_state (self : QdrantVectorStore)
    (where_ : option WhereQuery) (limit_ : option Z) (offset_ : Z)
    (s : Backend) :
  snd (list_request self where_ limit_ offset_ s) = s.
Proof.
  unfold list_request, bind, count, ret.
  destruct limit_ as [z|]; [destruct (z =? 0)%Z|];
    by destruct (s !! _index_name self).
Qed.

(** X12. [retrieve] and [list] only read: whatever they are given and
    whether they return or raise, the backend is afterwards as it was
    before. *)
Theorem reading_leaves_backend (self : QdrantVectorStore) (s : Backend) :
  (∀ text_ options, snd (retrieve self text_ options s) = s)
  ∧ (∀ where_ limit_ offset_, snd (list_ self where_ limit_ offset_ s) = s).
Proof.
  split.
  - intros text_ options. unfold retrieve, async_def, bind, lift.
    destruct (retrieve_request self text_ options) as [request|e].
    + pose proof (query_points_state request s) as Hq.
      destruct (query_points request s) as [[results|e] s']; simpl in Hq;
        subst s'; [done | by destruct e].
    + by destruct e.
  - intros where_ limit_ offset_.
    unfold list_, async_def, bind, collection_exists.
    destruct (bool_decide (is_Some (s !! _index_name self))); simpl; [|done].
    pose proof (list_request_state self where_ limit_ offset_ s) as Hr.
    destruct (list_request self where_ limit_ offset_ s)
      as [[request|e] s']; simpl in Hr; subst s'.
    + pose proof (query_points_state request s) as Hq.
      destruct (query_points request s) as [[results|e] s']; simpl in Hq;
        subst s'; [done | by destruct e].
    + by destruct e.
Qed.

(** What [list] returns from a collection that exists. *)
Lemma list_present (self : QdrantVectorStore) (where_ : option WhereQuery)
    (limit_ : option Z) (offset_ : Z) (s : Backend) (c : Collection) :
  s !! _index_name self = Some c →
  (0 ≤ effective_limit limit_ c)%Z →
  (0 ≤ offset_)%Z →
  list_ self where_ limit_ offset_ s
  = (Ok (page engine where_ limit_ offset_ c), s).
Proof.
  intros Hs Hlim Hoff.
  assert (list_request self where_ limit_ offset_ s
          = (Ok {| collection_name := _index_name self;
                   query := None;
                   query_filter := qdrant_filter_of where_;
                   limit := VInt (effective_limit limit_ c);
                   offset := Some offset_;
                   score_threshold := None |}, s)) as Hreq.
  { unfold list_request, bind, count, ret, effective_limit.
    destruct limit_ as [z|]; [destruct (z =? 0)%Z|]; by rewrite ?Hs. }
  unfold list_, async_def, bind, collection_exists.
  rewrite bool_decide_eq_true_2; [|by rewrite Hs]. cbn [negb].
  rewrite Hreq. unfold query_points.
  cbn [collection_name limit offset query query_filter default].
  rewrite Hs, !as_count_nonneg; [|done..].
  unfold ret, page. do 2 f_equal.
  rewrite List.skipn_map, List.firstn_map, List.map_map.
  by rewrite filter_passes_meets.
Qed.

End Reading.

Section Pages.
Context {engine : Engine}.

Lemma page_kept (where_ : option WhereQuery) (limit_ : option Z)
    (offset_ : Z) (c : Collection) :
  ∃ kept, kept ⊆+ points c
          ∧ Forall (fun p => meets engine where_ p = true) kept
          ∧ page engine where_ limit_ offset_ c
            = map (fun p => model_validate (snd (snd p))) kept.
Proof.
  eexists. split; [|split; [|reflexivity]].
  - etrans; [apply sublist_submseteq, sublist_take|].
    etrans; [apply sublist_submseteq, sublist_drop|].
    rewrite scan_permutation. apply sublist_submseteq, sublist_filter.
  - apply Forall_forall. intros p Hp.
    apply subseteq_take, subseteq_drop in Hp.
    rewrite scan_permutation in Hp.
    apply list_elem_of_filter in Hp as [Hp _].
    by apply Is_true_true_1 in Hp.
Qed.

(** X13. From a collection that exists, [list] returns stored entries
    whose payload satisfies every condition of the translated filter: in
    the backend's order, without the first [offset] of them and cut after
    [limit] of them, where a limit of zero counts like no limit, that is
    like the collection's count.  So the result is never longer than that
    effective limit nor than the collection, every entry in it is stored
    and satisfies the conditions, and without limit and offset it holds
    every stored entry that does, each once. *)
Theorem list_page (self : QdrantVectorStore) (where_ : option WhereQuery)
    (limit_ : option Z) (offset_ : Z) (s : Backend) (c : Collection) :
  s !! _index_name self = Some c →
  (0 ≤ default 0%Z limit_)%Z →
  (0 ≤ offset_)%Z →
  list_ self where_ limit_ offset_ s
  = (Ok (page engine where_ limit_ offset_ c), s)
  ∧ effective_limit limit_ c
    = (if (default 0 limit_ =? 0)%Z then Z.of_nat (length (points c))
       else default 0%Z limit_)
  ∧ (length (page engine where_ limit_ offset_ c)
     ≤ Z.to_nat (effective_limit limit_ c))%nat
  ∧ (length (page engine where_ limit_ offset_ c)
     ≤ length (points c))%nat
  ∧ (∀ e, e ∈ page engine where_ limit_ offset_ c →
          ∃ p, p ∈ points c
               ∧ forallb (fun condition => matches condition (snd (snd p)))
                   match where_ with
                   | Some w => must (_create_qdrant_filter w)
                   | None => []
                   end = true
               ∧ e = model_validate (snd (snd p)))
  ∧ page engine where_ None 0%Z c
    ≡ₚ map (fun p => model_validate (snd (snd p)))
         (filter
            (fun p =>
               forallb (fun condition => matches condition (snd (snd p)))
                 match where_ with
                 | Some w => must (_create_qdrant_filter w)
                 | None => []
                 end)
            (points c)).
Proof.
  intros Hs Hlim Hoff.
  assert (effective_limit limit_ c
          = (if (default 0 limit_ =? 0)%Z then Z.of_nat (length (points c))
             else default 0%Z limit_)) as Heff.
  { by destruct limit_ as [z|]. }
  split.
  { apply list_present; [done| |done]. rewrite Heff.
    destruct (default 0 limit_ =? 0)%Z; lia. }
  split; [exact Heff|].
  destruct (page_kept where_ limit_ offset_ c) as (kept & Hsub & Hall & Hp).
  split.
  { unfold page. rewrite length_map, length_take. lia. }
  split.
  { rewrite Hp, length_map. by apply submseteq_length. }
  split.
  { intros e He. rewrite Hp in He.
    apply list_elem_of_fmap in He as (p & -> & Hin).
    exists p. split; [|split; [|done]].
    - by apply (elem_of_submseteq _ _ _ Hin Hsub).
    - by eapply Forall_forall in Hall. }
  unfold page, effective_limit. change (Z.to_nat 0) with 0.
  rewrite drop_0, Nat2Z.id, take_ge.
  - by rewrite scan_permutation.
  - rewrite scan_permutation. apply length_filter.
Qed.

(** X14. Pages follow one another: with positive limits [a] and [b], the
    page at [offset] of [a] entries followed by the page at [offset + a]
    of [b] entries is the page at [offset] of [a + b] entries. *)
Theorem list_pages_concat (self : QdrantVectorStore)
    (where_ : option WhereQuery) (a b offset_ : Z) (s : Backend)
    (c : Collection) :
  s !! _index_name self = Some c →
  (0 < a)%Z → (0 < b)%Z → (0 ≤ offset_)%Z →
  ∃ first second,
    list_ self where_ (Some a) offset_ s = (Ok first, s)
    ∧ list_ self where_ (Some b) (offset_ + a)%Z s = (Ok second, s)
    ∧ list_ self where_ (Some (a + b)%Z) offset_ s
      = (Ok (first ++ second), s).
Proof.
  intros Hs Ha Hb Hoff.
  assert (∀ z, (0 < z)%Z → effective_limit (Some z) c = z) as Heff.
  { intros z Hz. unfold effective_limit.
    destruct (z =? 0)%Z eqn:E; [lia | done]. }
  exists (page engine where_ (Some a) offset_ c),
         (page engine where_ (Some b) (offset_ + a)%Z c).
  split; [apply list_present; [done | rewrite Heff; lia | done]|].
  split; [apply list_present; [done | rewrite Heff; lia | lia]|].
  rewrite (list_present self where_ (Some (a + b)%Z) offset_ s c Hs);
    [|rewrite Heff; lia | done].
  do 2 f_equal. unfold page. rewrite !Heff; [|lia..].
  rewrite <- map_app. f_equal.
  rewrite (Z2Nat.inj_add offset_ a), (Z2Nat.inj_add a b); [|lia..].
  rewrite <- drop_drop. symmetry. apply take_take_drop.
Qed.

End Pages.

Lemma list_page_witness :
  list_ (engine := embedded_engine) (sample_store TEXT)
    (Some (DScalar "kind" (SStr "pet") DEmpty)) (Some 1%Z) 1%Z kind_backend
  = (Ok [kind_entry "3" "one bird" "pet"], kind_backend).
Proof.
  assert ((0 ≤ 1)%Z) as Hpos by lia.
  etrans;
    [exact (proj1
              (list_page (engine := embedded_engine) (sample_store TEXT)
                 (Some (DScalar "kind" (SStr "pet") DEmpty)) (Some 1%Z)
                 1%Z kind_backend kind_collection eq_refl Hpos Hpos))|].
  vm_compute. reflexivity.
Defined.

Lemma list_pages_concat_witness :
  ∃ first second,
    list_ (engine := embedded_engine) (sample_store TEXT) None (Some 1%Z)
      0%Z three_entry_backend = (Ok first, three_entry_backend)
    ∧ list_ (engine := embedded_engine) (sample_store TEXT) None (Some 2%Z)
        (0 + 1)%Z three_entry_backend = (Ok second, three_entry_backend)
    ∧ list_ (engine := embedded_engine) (sample_store TEXT) None
        (Some (1 + 2)%Z) 0%Z three_entry_backend
      = (Ok (first ++ second), three_entry_backend).
Proof.
  apply (list_pages_concat (engine := embedded_engine) (sample_store TEXT)
           None 1%Z 2%Z 0%Z three_entry_backend three_entry_collection).
  - reflexivity.
  - lia.
  - lia.
  - lia.
Defined.

(** ** Storing and listing *)

Lemma entry_points_all (embeddings : PyDict.t UUID vector)
    (entries : list VectorStoreEntry) :
  (∀ e, e ∈ entries → is_Some (PyDict.get embeddings (id e))) →
  map point_id (entry_points embeddings entries) = map id entries
  ∧ map point_payload (entry_points embeddings entries)
    = map model_dump entries.
Proof.
  induction entries as [|e rest IH]; intros Hall; [done|].
  destruct (Hall e) as [v Hv]; [left|].
  destruct IH as [IHid IHpl]; [intros e' He'; apply Hall; by right|].
  unfold entry_points in *. cbn [omap list_omap]. rewrite Hv.
  cbn [map point_id point_payload]. by rewrite IHid, IHpl.
Qed.

Lemma filter_meets_None {engine : Engine}
    (pts : list (string * (vector * Payload))) :
  filter (fun p => meets engine None p) pts = pts.
Proof.
  induction pts as [|p rest IH]; [done|].
  rewrite filter_cons_True; [by rewrite IH | done].
Qed.

(** What [list] without arguments returns from a collection: its entries,
    in the engine's order. *)
Lemma page_all {engine : Engine} (c : Collection) :
  page engine None None 0%Z c
  ≡ₚ map (fun p => model_validate (snd (snd p))) (points c).
Proof.
  unfold page, effective_limit. change (Z.to_nat 0) with 0.
  rewrite drop_0, Nat2Z.id, filter_meets_None, take_ge.
  - by rewrite scan_permutation.
  - by rewrite scan_permutation.
Qed.

(** X15. Storing and listing round-trip on a fresh store: when the
    collection does not exist yet, the entries have pairwise distinct
    identities, each of them has an embedding and [store] succeeds, a
    [list] without arguments then returns exactly these entries, each
    once, in the order of the backend. *)
Theorem store_then_list {engine : Engine} (self : QdrantVectorStore)
    (entries : list VectorStoreEntry) (s : Backend) :
  s !! _index_name self = None →
  entries ≠ [] →
  NoDup (map id entries) →
  (∀ e, e ∈ entries →
        is_Some (PyDict.get
                   (_create_embeddings (_embedder self)
                      (_embedding_type self) entries) (id e))) →
  fst (store self entries s) = Ok tt →
  ∃ listed,
    list_ self None None 0%Z (snd (store self entries s))
    = (Ok listed, snd (store self entries s))
    ∧ listed ≡ₚ entries
    ∧ length listed = length entries.
Proof.
  intros Hs Hne Hnd Hall Hok.
  destruct (_create_embeddings (_embedder self) (_embedding_type self)
              entries) as [|[i v] rest] eqn:Hemb.
  { destruct entries as [|e entries']; [done|].
    destruct (Hall e) as [? Hv]; [left | done]. }
  rewrite (store_eval_absent self entries s i v rest Hs Hemb) in Hok |- *.
  destruct (sizes_fit _ _); [|done]. cbn [snd].
  destruct (entry_points_all ((i, v) :: rest) entries Hall) as [Hids Hpls].
  set (pts := entry_points ((i, v) :: rest) entries) in *.
  assert (fold_left upsert pts [] = map point_item pts) as Hfold.
  { rewrite fold_upsert_update. rewrite update_fresh; [done|].
    unfold PyDict.keys. rewrite List.map_map. simpl.
    change (NoDup (map point_id pts)). by rewrite Hids. }
  rewrite Hfold.
  set (c := {| vectors_size := length v;
               vectors_distance := _distance_method self;
               points := map point_item pts |}).
  exists (page engine None None 0%Z c).
  assert (page engine None None 0%Z c ≡ₚ entries) as Hperm.
  { rewrite page_all. unfold c. cbn [points]. rewrite List.map_map.
    change (map (fun x => model_validate (snd (snd (point_item x)))) pts)
      with (map (fun x => model_validate (point_payload x)) pts).
    rewrite <- (List.map_map point_payload model_validate), Hpls.
    rewrite List.map_map.
    rewrite (List.map_ext _ (fun e => e) model_validate_dump).
    by rewrite List.map_id. }
  split; [|split; [exact Hperm | by rewrite Hperm]].
  apply list_present; [apply lookup_insert_eq | |done].
  unfold effective_limit. lia.
Qed.

Lemma store_then_list_witness :
  ∃ listed,
    list_ (engine := embedded_engine) (sample_store TEXT) None None 0%Z
      (snd (store (sample_store TEXT)
              [text_entry "2" "a dog"; text_entry "1" "the cat"] ∅))
    = (Ok listed,
       snd (store (sample_store TEXT)
              [text_entry "2" "a dog"; text_entry "1" "the cat"] ∅))
    ∧ listed ≡ₚ [text_entry "2" "a dog"; text_entry "1" "the cat"].
Proof.
  assert ((∅ : Backend) !! _index_name (sample_store TEXT) = None)
    as Hs by reflexivity.
  destruct (store_then_list (engine := embedded_engine)
              (sample_store TEXT)
              [text_entry "2" "a dog"; text_entry "1" "the cat"] ∅ Hs)
    as (listed & Hlist & Hperm & _).
  - discriminate.
  - apply (bool_decide_unpack _). vm_compute. exact I.
  - intros e He. apply elem_of_cons in He as [->|He]; [by eexists|].
    apply list_elem_of_singleton in He as ->. by eexists.
  - reflexivity.
  - by exists listed.
Defined.

(** ** More on [remove], and what every operation keeps *)

Section Removing.
Context {engine : Engine}.

Lemma delete_ids_NoDup (ids : list string)
    (pts : PyDict.t string (vector * Payload)) :
  NoDup (PyDict.keys pts) →
  NoDup (PyDict.keys (snd (delete_ids pts ids))).
Proof.
  revert pts. induction ids as [|i rest IH]; intros pts Hnd; [done|].
  simpl. destruct (PyDict.mem pts i).
  - apply IH. by apply NoDup_keys_remove.
  - destruct strict_delete; [done | by apply IH].
Qed.

Lemma delete_ids_keeps_none (ids : list string)
    (pts : PyDict.t string (vector * Payload)) (j : string) :
  PyDict.get pts j = None →
  PyDict.get (snd (delete_ids pts ids)) j = None.
Proof.
  revert pts. induction ids as [|i rest IH]; intros pts Hj; [done|].
  simpl. destruct (PyDict.mem pts i).
  - apply IH. apply get_None_not_key. intros Hin.
    apply keys_remove_subseteq in Hin. by apply get_None_not_key in Hj.
  - destruct strict_delete; [done | by apply IH].
Qed.

(** What [remove] does when the collection exists. *)
Lemma remove_eval_present (self : QdrantVectorStore) (ids : list UUID)
    (s : Backend) (c : Collection) :
  s !! _index_name self = Some c →
  remove self ids s
  = (Ok tt,
     <[_index_name self :=
         {| vectors_size := vectors_size c;
            vectors_distance := vectors_distance c;
            points := snd (delete_ids (points c) ids) |}]> s).
Proof.
  intros Hs. unfold remove, async_def, suppress, delete. rewrite Hs.
  destruct (delete_ids_result ids (points c)) as [Hr|Hr];
    destruct (delete_ids (points c) ids) as [r pts];
    simpl in Hr; subst r; reflexivity.
Qed.

(** X16. On a store whose collection does not exist, [remove] raises
    [ValueError] whatever the identities, the empty list included, and the
    backend is left as it was: only a missing point is forgiven, not a
    missing collection. *)
Theorem remove_absent_collection (self : QdrantVectorStore)
    (ids : list UUID) (s : Backend) :
  s !! _index_name self = None →
  remove self ids s = (Raise ValueError, s).
Proof.
  intros Hs. unfold remove, async_def, suppress, delete. by rewrite Hs.
Qed.

(** X17. With an engine that ignores unknown points, after [remove] none
    of the listed identities is in the collection, whether it was stored
    before or not. *)
Theorem remove_deletes_listed (self : QdrantVectorStore) (ids : list UUID)
    (s : Backend) (c : Collection) :
  strict_delete = false →
  s !! _index_name self = Some c →
  NoDup (PyDict.keys (points c)) →
  ∃ c',
    remove self ids s = (Ok tt, <[_index_name self := c']> s)
    ∧ ∀ i, i ∈ ids → PyDict.get (points c') i = None.
Proof.
  intros Hstrict Hs Hnd. eexists.
  split; [by apply remove_eval_present|]. cbn [points].
  generalize dependent (points c). clear Hs c.
  induction ids as [|i rest IH]; intros pts Hnd j Hj.
  { by apply elem_of_nil in Hj. }
  simpl. rewrite Hstrict.
  destruct (PyDict.mem pts i) eqn:Hmem.
  - destruct (decide (j ∈ rest)) as [Hin|Hnin].
    + apply IH; [by apply NoDup_keys_remove | done].
    + apply elem_of_cons in Hj as [->|Hj]; [|done].
      apply delete_ids_keeps_none. by apply get_remove_eq.
  - destruct (decide (j ∈ rest)) as [Hin|Hnin].
    + by apply IH.
    + apply elem_of_cons in Hj as [->|Hj]; [|done].
      apply delete_ids_keeps_none. unfold PyDict.mem in Hmem.
      by destruct (PyDict.get pts i).
Qed.

(** X18. With an engine that raises [KeyError] on an unknown point,
    [remove] stops at the first identity that is not stored and swallows
    the error: it reports success, and the identities listed after that
    one stay in the collection. *)
Theorem remove_stops_at_unknown (self : QdrantVectorStore)
    (known : list UUID) (unknown : UUID) (later : list UUID)
    (s : Backend) (c : Collection) :
  strict_delete = true →
  s !! _index_name self = Some c →
  PyDict.get (points c) unknown = None →
  ∃ c',
    remove self (known ++ unknown :: later) s
    = (Ok tt, <[_index_name self := c']> s)
    ∧ remove self known s = (Ok tt, <[_index_name self := c']> s)
    ∧ ∀ j, j ∉ known → PyDict.get (points c') j = PyDict.get (points c) j.
Proof.
  intros Hstrict Hs Hunknown. eexists.
  split; [|split; [by apply remove_eval_present|]].
  - rewrite (remove_eval_present self _ s c Hs). do 3 f_equal.
    generalize dependent (points c). clear Hs c.
    induction known as [|i rest IH]; intros pts Hunknown; simpl.
    + unfold PyDict.mem. by rewrite Hunknown, Hstrict.
    + destruct (PyDict.mem pts i).
      * apply IH. apply get_None_not_key. intros Hin.
        apply keys_remove_subseteq in Hin.
        by apply get_None_not_key in Hunknown.
      * by rewrite Hstrict.
  - intros j Hj. cbn [points]. by apply delete_ids_other.
Qed.

(** X19. No operation makes a collection hold two points with one
    identity: if that holds of the backend before [store] or [remove], it
    holds after, whether the call returns or raises. *)
Theorem operations_keep_unique_identities (self : QdrantVectorStore)
    (s : Backend) :
  unique_identities s →
  (∀ entries, unique_identities (snd (store self entries s)))
  ∧ (∀ ids, unique_identities (snd (remove self ids s))).
Proof.
  intros Hwf.
  assert (∀ c', NoDup (PyDict.keys (points c')) →
                unique_identities (<[_index_name self := c']> s)) as Hins.
  { intros c' Hc' name c. destruct (decide (_index_name self = name)) as [<-|Hne].
    - rewrite lookup_insert_eq. by intros [= <-].
    - rewrite lookup_insert_ne; [apply Hwf | done]. }
  split.
  - intros entries. destruct entries as [|e entries']; [done|].
    destruct (s !! _index_name self) as [c|] eqn:Hs.
    + rewrite (store_eval_present self _ s c Hs); [|done].
      destruct (sizes_fit _ _); [|done].
      apply Hins. cbn [points]. apply NoDup_fold_upsert. by eapply Hwf.
    + destruct (_create_embeddings (_embedder self) (_embedding_type self)
                  (e :: entries')) as [|[i v] rest] eqn:Hemb.
      * unfold store. rewrite Hemb.
        unfold async_def, bind, collection_exists.
        rewrite bool_decide_eq_false_2; [done|].
        rewrite Hs. by intros [? ?].
      * rewrite (store_eval_absent self _ s i v rest Hs Hemb).
        destruct (sizes_fit _ _); apply Hins; cbn [points];
          [apply NoDup_fold_upsert|]; constructor.
  - intros ids. destruct (s !! _index_name self) as [c|] eqn:Hs.
    + rewrite (remove_eval_present self ids s c Hs).
      apply Hins. cbn [points]. apply delete_ids_NoDup. by eapply Hwf.
    + by rewrite remove_absent_collection.
Qed.

End Removing.

Lemma remove_absent_collection_witness :
  remove (engine := server_engine) (sample_store TEXT) [] ∅
  = (Raise ValueError, ∅).
Proof.
  apply (remove_absent_collection (engine := server_engine)
           (sample_store TEXT) [] ∅).
  reflexivity.
Defined.

Lemma remove_deletes_listed_witness :
  ∃ c',
    remove (engine := server_engine) (sample_store TEXT) ["9"; "2"; "2"]
      three_entry_backend
    = (Ok tt, <["docs" := c']> three_entry_backend)
    ∧ PyDict.get (points c') "2" = None.
Proof.
  destruct (remove_deletes_listed (engine := server_engine)
              (sample_store TEXT) ["9"; "2"; "2"] three_entry_backend
              three_entry_collection eq_refl eq_refl)
    as (c' & Hremove & Hgone).
  { apply (bool_decide_unpack _). vm_compute. exact I. }
  exists c'. split; [exact Hremove|]. apply Hgone. right. left.
Defined.

Lemma remove_stops_at_unknown_witness :
  ∃ c',
    remove (engine := embedded_engine) (sample_store TEXT) ["1"; "9"; "2"]
      three_entry_backend
    = (Ok tt, <["docs" := c']> three_entry_backend)
    ∧ PyDict.get (points c') "2"
      = Some ([1%float; 0%float], model_dump (text_entry "2" "a dog")).
Proof.
  destruct (remove_stops_at_unknown (engine := embedded_engine)
              (sample_store TEXT) ["1"] "9" ["2"] three_entry_backend
              three_entry_collection eq_refl eq_refl eq_refl)
    as (c' & Hremove & _ & Hkeep).
  exists c'. split; [exact Hremove|]. rewrite Hkeep; [reflexivity|].
  intros Hin. apply list_elem_of_singleton in Hin. discriminate.
Defined.

Lemma operations_keep_unique_identities_witness :
  unique_identities
    (snd (store (sample_store TEXT)
            [text_entry "1" "the cat"; text_entry "1" "a dog"] ∅)).
Proof.
  apply (operations_keep_unique_identities (engine := embedded_engine)
           (sample_store TEXT) ∅).
  intros name c Hc. by rewrite lookup_empty in Hc.
Defined.

(** ** More on the filter translation *)

Section DictMembers.
Context {K V : Type} `{EqDecision K}.

Lemma in_set (d : PyDict.t K V) (k k' : K) (v v' : V) :
  (k', v') ∈ PyDict.set d k v → (k', v') ∈ d ∨ (k', v') = (k, v).
Proof.
  induction d as [|[k0 v0] rest IH]; simpl.
  - intros Hin. apply list_elem_of_singleton in Hin. by right.
  - destruct (decide (k0 = k)) as [->|Hne]; intros Hin;
      apply elem_of_cons in Hin as [Heq|Hin].
    + by right.
    + left. by right.
    + left. rewrite Heq. left.
    + destruct (IH Hin) as [?|?]; [left; by right | by right].
Qed.

Lemma in_update (pairs : list (K * V)) (d : PyDict.t K V) (k : K) (v : V) :
  (k, v) ∈ PyDict.update d pairs → (k, v) ∈ d ∨ (k, v) ∈ pairs.
Proof.
  unfold PyDict.update. revert d.
  induction pairs as [|[k0 v0] rest IH]; intros d Hin; simpl in *;
    [by left|].
  destruct (IH _ Hin) as [Hd|Hr]; [|right; by right].
  destruct (in_set _ _ _ _ _ Hd) as [Hd'| ->]; [by left | right; left].
Qed.

Lemma keys_set_superset (d : PyDict.t K V) (k x : K) (v : V) :
  x ∈ PyDict.keys d ∨ x = k → x ∈ PyDict.keys (PyDict.set d k v).
Proof.
  destruct (decide (k ∈ PyDict.keys d)) as [Hin|Hnin].
  - rewrite keys_set_present; [|done]. by intros [Hx| ->].
  - rewrite keys_set_fresh; [|done]. rewrite elem_of_app.
    intros [Hx| ->]; [by left | right; left].
Qed.

Lemma keys_update_superset (pairs : list (K * V)) (d : PyDict.t K V)
    (x : K) :
  x ∈ PyDict.keys d ∨ x ∈ PyDict.keys pairs →
  x ∈ PyDict.keys (PyDict.update d pairs).
Proof.
  unfold PyDict.update. revert d.
  induction pairs as [|[k0 v0] rest IH]; intros d Hx; simpl in *.
  - destruct Hx as [?|Hx]; [done | by apply elem_of_nil in Hx].
  - apply IH. destruct Hx as [Hx|Hx].
    + left. apply keys_set_superset. by left.
    + apply elem_of_cons in Hx as [->|Hx]; [|by right].
      left. apply keys_set_superset. by right.
Qed.

Lemma NoDup_keys_update (pairs : list (K * V)) (d : PyDict.t K V) :
  NoDup (PyDict.keys d) → NoDup (PyDict.keys (PyDict.update d pairs)).
Proof.
  unfold PyDict.update. revert d.
  induction pairs as [|[k0 v0] rest IH]; intros d Hnd; [done|].
  simpl. apply IH. by apply NoDup_keys_set.
Qed.

Lemma length_set_le (d : PyDict.t K V) (k : K) (v : V) :
  (length (PyDict.set d k v) ≤ S (length d))%nat.
Proof.
  induction d as [|[k0 v0] rest IH]; simpl; [lia|].
  destruct (decide (k0 = k)); simpl; lia.
Qed.

Lemma length_update_le (pairs : list (K * V)) (d : PyDict.t K V) :
  (length (PyDict.update d pairs) ≤ length d + length pairs)%nat.
Proof.
  unfold PyDict.update. revert d.
  induction pairs as [|[k0 v0] rest IH]; intros d; simpl; [lia|].
  etrans; [apply IH|]. pose proof (length_set_le d k0 v0). lia.
Qed.

End DictMembers.

Lemma flatten_items_NoDup (d : nested_dict) :
  ∀ parent_key items,
    NoDup (PyDict.keys items) →
    NoDup (PyDict.keys (flatten_items items d parent_key)).
Proof.
  induction d as [|k v rest IH|k sub IHsub rest IH];
    intros parent_key items Hnd; simpl; [done|..].
  - apply IH. by apply NoDup_keys_set.
  - apply IH. by apply NoDup_keys_update.
Qed.

Lemma flatten_items_length (d : nested_dict) :
  ∀ parent_key items,
    (length (flatten_items items d parent_key)
     ≤ length items + length (leaves d))%nat.
Proof.
  induction d as [|k v rest IH|k sub IHsub rest IH];
    intros parent_key items; simpl; [lia|..].
  - etrans; [apply IH|]. pose proof (length_set_le items
                                        (child_key parent_key k) v). lia.
  - etrans; [apply IH|]. rewrite length_app, length_map.
    pose proof (length_update_le
                  (flatten_items [] sub (Some (child_key parent_key k)))
                  items) as Hu.
    pose proof (IHsub (Some (child_key parent_key k)) []) as Hs.
    simpl in Hs. lia.
Qed.

Lemma flatten_items_in (d : nested_dict) :
  ∀ parent_key items key v,
    (key, v) ∈ flatten_items items d parent_key →
    (key, v) ∈ items
    ∨ ∃ l, l ∈ leaves d ∧ key = key_under parent_key (fst l) ∧ v = snd l.
Proof.
  induction d as [|k v0 rest IH|k sub IHsub rest IH];
    intros parent_key items key v Hin; simpl in *; [by left|..].
  - destruct (IH _ _ _ _ Hin) as [Hset|(l & Hl & -> & ->)].
    + destruct (in_set _ _ _ _ _ Hset) as [?|Heq]; [by left|].
      injection Heq as -> ->. right. exists ([k], v0).
      split; [left | done].
    + right. exists l. split; [by right | done].
  - destruct (IH _ _ _ _ Hin) as [Hup|(l & Hl & -> & ->)].
    + destruct (in_update _ _ _ _ Hup) as [?|Hsub]; [by left|].
      destruct (IHsub _ _ _ _ Hsub) as [Hnil|(l & Hl & -> & ->)].
      { by apply elem_of_nil in Hnil. }
      right. exists (k :: fst l, snd l). split; [|split; [|done]].
      * apply elem_of_app. left. by apply (list_elem_of_fmap_2
                                            (fun l => (k :: fst l, snd l))).
      * simpl. rewrite key_under_cons; [done|].
        pose proof (leaves_paths_nonempty sub) as Hne.
        by eapply Forall_forall in Hne.
    + right. exists l. split; [|done]. apply elem_of_app. by right.
Qed.

Lemma flatten_items_keys (d : nested_dict) :
  ∀ parent_key items x,
    x ∈ PyDict.keys items
    ∨ (∃ l, l ∈ leaves d ∧ x = key_under parent_key (fst l)) →
    x ∈ PyDict.keys (flatten_items items d parent_key).
Proof.
  induction d as [|k v0 rest IH|k sub IHsub rest IH];
    intros parent_key items x Hx; simpl in *.
  - destruct Hx as [?|(l & Hl & _)]; [done | by apply elem_of_nil in Hl].
  - apply IH. destruct Hx as [Hx|(l & Hl & ->)].
    + left. apply keys_set_superset. by left.
    + apply elem_of_cons in Hl as [->|Hl].
      * left. apply keys_set_superset. by right.
      * right. by exists l.
  - apply IH. destruct Hx as [Hx|(l & Hl & ->)].
    + left. apply keys_update_superset. by left.
    + apply elem_of_app in Hl as [Hl|Hl]; [|right; by exists l].
      left. apply keys_update_superset. right.
      apply list_elem_of_fmap in Hl as (l' & -> & Hl').
      apply IHsub. right. exists l'. split; [done|]. simpl.
      rewrite key_under_cons; [done|].
      pose proof (leaves_paths_nonempty sub) as Hne.
      by eapply Forall_forall in Hne.
Qed.

Lemma string_app_inj (a x y : string) : a +:+ x = a +:+ y → x = y.
Proof.
  induction a as [|ch a IH]; [done|].
  change (String ch (a +:+ x) = String ch (a +:+ y) → x = y).
  intros [= Heq]. by apply IH.
Qed.

(** X20. Whatever the filter, colliding paths included: no two conditions
    of the translation bear on the same key; every condition is the
    condition of some leaf of the filter; every leaf's key has a
    condition; and there are at most as many conditions as leaves. *)
Theorem create_qdrant_filter_sound (where_ : WhereQuery) :
  NoDup (map key (must (_create_qdrant_filter where_)))
  ∧ (length (must (_create_qdrant_filter where_))
     ≤ length (leaves where_))%nat
  ∧ (∀ c, c ∈ must (_create_qdrant_filter where_) →
          ∃ l, l ∈ leaves where_ ∧ c = leaf_condition l)
  ∧ (∀ l, l ∈ leaves where_ →
          ∃ c, c ∈ must (_create_qdrant_filter where_)
               ∧ key c = key (leaf_condition l)).
Proof.
  unfold _create_qdrant_filter, flatten_dict. cbn [must].
  set (flat := flatten_items [] where_ None).
  split; [|split; [|split]].
  - rewrite List.map_map. cbn [key].
    assert (NoDup (PyDict.keys flat)) as Hnd
      by (apply flatten_items_NoDup; constructor).
    unfold PyDict.keys in Hnd.
    rewrite <- (List.map_map fst (fun k => "metadata." +:+ k)).
    apply NoDup_fmap_2; [|exact Hnd].
    intros x y. apply string_app_inj.
  - rewrite length_map. apply (flatten_items_length where_ None []).
  - intros c Hc. apply list_elem_of_fmap in Hc as ([k v] & -> & Hkv).
    destruct (flatten_items_in where_ None [] k v Hkv)
      as [Hnil|(l & Hl & -> & ->)]; [by apply elem_of_nil in Hnil|].
    exists l. by split.
  - intros l Hl.
    assert (dotted (fst l) ∈ PyDict.keys flat) as Hk.
    { apply flatten_items_keys. right. by exists l. }
    apply list_elem_of_fmap in Hk as ([k v] & Hk & Hkv). simpl in Hk.
    exists {| key := "metadata." +:+ k; match_value := v |}.
    split; [|unfold leaf_condition; cbn [key]; congruence].
    by apply (list_elem_of_fmap_2
                (fun kv => {| key := "metadata." +:+ fst kv;
                              match_value := snd kv |}) _ (k, v)).
Qed.

(** ** More on [retrieve] *)

Section Retrieving.
Context {engine : Engine}.

(** X21. Options that give nothing are like no options: when every field
    of the options passed to [retrieve] holds "not given", the call does
    what [retrieve] without options does. *)
Theorem retrieve_all_not_given (self : QdrantVectorStore) (text_ : string)
    (options : LLMOptions) (s : Backend) :
  NoDup (PyDict.keys (fields (default_options self))) →
  (∀ key v, PyDict.get (fields options) key = Some v → v = VNotGiven) →
  retrieve_request self text_ (Some options)
  = retrieve_request self text_ None
  ∧ retrieve self text_ (Some options) s = retrieve self text_ None s.
Proof.
  intros Hnd Hall.
  assert (retrieve_request self text_ (Some options)
          = retrieve_request self text_ None) as Hreq.
  { unfold retrieve_request, merged_options.
    by rewrite (or_all_not_given _ _ Hnd Hall). }
  split; [exact Hreq|]. unfold retrieve. by rewrite Hreq.
Qed.

(** X22. When the merged options carry an integer [k] that is not
    negative and the collection exists, [retrieve] returns at most [k]
    results, and raises nothing, if the vector of the query text has the
    size of the collection; if it has another size the backend refuses
    the query and [retrieve] raises. *)
Theorem retrieve_at_most_k (self : QdrantVectorStore) (text_ : string)
    (options : option LLMOptions) (s : Backend) (c : Collection)
    (request : QueryRequest) (k : Z) (v : vector) :
  s !! _index_name self = Some c →
  retrieve_request self text_ options = Ok request →
  getattr (merged_options self options) "k" = Ok (VInt k) →
  (0 ≤ k)%Z →
  first_item (embed_text (_embedder self) [text_]) = Ok v →
  (length v = vectors_size c →
   ∃ results,
     retrieve self text_ options s = (Ok results, s)
     ∧ (length results ≤ Z.to_nat k)%nat)
  ∧ (length v ≠ vectors_size c →
     retrieve self text_ options s = (Raise QdrantException, s)).
Proof.
  intros Hs Hreq Hk Hk0 Hv.
  assert (request
          = {| collection_name := _index_name self;
               query := Some v;
               query_filter := None;
               limit := VInt k;
               offset := None;
               score_threshold := score_threshold request |}) as Hshape.
  { unfold retrieve_request in Hreq.
    destruct (score_threshold_of _); [|done].
    rewrite Hv, Hk in Hreq. by injection Hreq as <-. }
  assert (∀ fits, has_size (vectors_size c) v = fits →
            retrieve self text_ options s
            = if fits
              then (Ok (map to_result
                          (take (Z.to_nat k)
                             (drop 0
                                (search (vectors_distance c) v
                                   (score_threshold request)
                                   (filter (fun p => passes None p)
                                      (points c)))))), s)
              else (Raise QdrantException, s)) as Heval.
  { intros fits Hfits.
    unfold retrieve, async_def, bind, lift. rewrite Hreq.
    unfold query_points. rewrite Hshape.
    cbn [collection_name limit offset query query_filter default
           score_threshold].
    rewrite Hs, as_count_nonneg; [|done].
    change (as_count (VInt (Datatypes.id 0%Z))) with (Ok (A := nat) 0).
    cbn beta iota. rewrite Hfits. by destruct fits. }
  split.
  - intros Hsize. rewrite (Heval true).
    + eexists. split; [reflexivity|].
      rewrite length_map, length_take. lia.
    + unfold has_size. by apply Nat.eqb_eq.
  - intros Hsize. rewrite (Heval false); [done|].
    unfold has_size. by apply Nat.eqb_neq.
Qed.

End Retrieving.

Lemma retrieve_all_not_given_witness :
  retrieve (engine := embedded_engine) (sample_store TEXT) "cat"
    (Some (VectorStoreOptions VNotGiven VNotGiven)) one_entry_backend
  = retrieve (engine := embedded_engine) (sample_store TEXT) "cat" None
      one_entry_backend.
Proof.
  refine (proj2 (retrieve_all_not_given (engine := embedded_engine)
                   (sample_store TEXT) "cat"
                   (VectorStoreOptions VNotGiven VNotGiven)
                   one_entry_backend _ _)).
  - apply (bool_decide_unpack _). vm_compute. exact I.
  - intros key v. simpl.
    destruct (decide ("k" = key)); [by intros [= <-]|].
    destruct (decide ("max_distance" = key)); [by intros [= <-]|].
    discriminate.
Defined.

Lemma retrieve_at_most_k_witness :
  (∃ results,
     retrieve (engine := embedded_engine) (sample_store TEXT) "cat"
       (Some (VectorStoreOptions (VInt 2) VNotGiven)) three_entry_backend
     = (Ok results, three_entry_backend)
     ∧ (length results ≤ Z.to_nat 2)%nat)
  ∧ retrieve (engine := embedded_engine) (sample_store TEXT) "cat"
      (Some (VectorStoreOptions (VInt 2) VNotGiven)) wide_backend
    = (Raise QdrantException, wide_backend).
Proof.
  assert ((0 ≤ 2)%Z) as Hk by lia.
  split.
  - apply (proj1 (retrieve_at_most_k (engine := embedded_engine)
                    (sample_store TEXT) "cat"
                    (Some (VectorStoreOptions (VInt 2) VNotGiven))
                    three_entry_backend three_entry_collection _ 2%Z
                    [1%float; 0%float] eq_refl eq_refl eq_refl Hk eq_refl)).
    reflexivity.
  - apply (proj2 (retrieve_at_most_k (engine := embedded_engine)
                    (sample_store TEXT) "cat"
                    (Some (VectorStoreOptions (VInt 2) VNotGiven))
                    wide_backend wide_collection _ 2%Z
                    [1%float; 0%float] eq_refl eq_refl eq_refl Hk eq_refl)).
    simpl. lia.
Defined.

(** ** qa.py: formatting the output of the generation tasks *)

Section Passages.
Variable get_passages_list : string → option (list string).
Variable get_closest_substring : string → string → string.

Lemma match_passages_chunk (d : PyDict.t string string) (chunk : string)
    (passages matched : list string) :
  PyDict.get d "chunk" = Some chunk →
  match_passages get_closest_substring (Some d) passages matched
  = Ok (matched
        ++ map (fun passage =>
                  if contains chunk passage then passage
                  else get_closest_substring chunk passage) passages).
Proof.
  intros Hchunk. revert matched.
  induction passages as [|passage rest IH]; intros matched; simpl.
  - by rewrite app_nil_r.
  - rewrite Hchunk. destruct (contains chunk passage);
      rewrite IH; by rewrite <- app_assoc.
Qed.

Lemma match_passages_raises (input : option (PyDict.t string string))
    (e : exn) (passage : string) (rest matched : list string) :
  input_item input "chunk" = Raise e →
  match_passages get_closest_substring input (passage :: rest) matched
  = Raise e.
Proof. intros He. simpl. by rewrite He. Qed.

(** X23. Given an input with a chunk and a question, the passages task
    returns the chunk, the question and one passage for each passage
    extracted from the output, in order: the extracted passage itself, or,
    when matching is on and the passage does not occur in the chunk, the
    closest substring of the chunk.  No passage is dropped or added. *)
Theorem passages_format_output (should_get_matches : bool)
    (output chunk question : string) (d : PyDict.t string string) :
  PyDict.get d "chunk" = Some chunk →
  PyDict.get d "question" = Some question →
  ∃ passages,
    PassagesGenTask_format_output get_passages_list get_closest_substring
      should_get_matches output (Some d)
    = Ok [("chunk", OStr chunk); ("question", OStr question);
          ("passages", OList passages)]
    ∧ passages
      = map (fun passage =>
               if should_get_matches && negb (contains chunk passage)
               then get_closest_substring chunk passage
               else passage)
          (extracted_passages get_passages_list output)
    ∧ length passages
      = length (extracted_passages get_passages_list output).
Proof.
  intros Hchunk Hquestion. eexists. split; [|split; [reflexivity|]].
  - unfold PassagesGenTask_format_output. destruct should_get_matches.
    + rewrite (match_passages_chunk d chunk _ [] Hchunk).
      unfold passages_output, input_item. rewrite Hchunk, Hquestion.
      rewrite app_nil_l.
      assert (∀ l : list string,
                map (fun passage =>
                       if contains chunk passage then passage
                       else get_closest_substring chunk passage) l
                = map (fun passage =>
                         if true && negb (contains chunk passage)
                         then get_closest_substring chunk passage
                         else passage) l) as ->; [|done].
      intros l. apply List.map_ext. intros passage.
      by destruct (contains chunk passage).
    + unfold passages_output, input_item. rewrite Hchunk, Hquestion.
      cbn [andb]. by rewrite List.map_id.
  - by rewrite length_map.
Qed.

(** X24. When every passage extracted from the output occurs in the
    chunk, matching changes nothing: the passages task returns the same
    dictionary with matching on and with matching off. *)
Theorem passages_matching_idle (output : string)
    (input : option (PyDict.t string string)) (chunk : string) :
  input_item input "chunk" = Ok chunk →
  Forall (fun passage => contains chunk passage = true)
    (extracted_passages get_passages_list output) →
  PassagesGenTask_format_output get_passages_list get_closest_substring
    true output input
  = PassagesGenTask_format_output get_passages_list get_closest_substring
      false output input.
Proof.
  intros Hchunk Hall. unfold PassagesGenTask_format_output.
  destruct input as [d|]; [|done]. unfold input_item in Hchunk.
  destruct (PyDict.get d "chunk") as [chunk'|] eqn:Hget; [|done].
  injection Hchunk as ->.
  rewrite (match_passages_chunk d chunk _ [] Hget). simpl.
  do 2 f_equal.
  rewrite <- (List.map_id (extracted_passages _ _)) at 2.
  apply List.map_ext_Forall. eapply Forall_impl; [exact Hall|].
  intros passage Hp. simpl in Hp. by rewrite Hp.
Qed.

(** X25. The formatters and a missing input: without an input ([None]) the
    query task and the passages task raise [TypeError], the passages task
    with matching on or off and even when no passage was extracted; with
    an input that lacks the chunk they raise [KeyError]; the answer task
    never looks at its input. *)
Theorem format_output_without_input (should_get_matches : bool)
    (output : string) :
  QueryGenTask_format_output output None = Raise TypeError
  ∧ PassagesGenTask_format_output get_passages_list get_closest_substring
      should_get_matches output None = Raise TypeError
  ∧ (∀ d, PyDict.get d "chunk" = None →
          QueryGenTask_format_output output (Some d) = Raise KeyError
          ∧ PassagesGenTask_format_output get_passages_list
              get_closest_substring should_get_matches output (Some d)
            = Raise KeyError)
  ∧ (∀ input, AnswerGenTask_format_output output input
              = Ok [("basic_answer", OStr output)]).
Proof.
  split; [done|]. split; [|split; [|done]].
  - unfold PassagesGenTask_format_output.
    destruct should_get_matches; [|done].
    by destruct (extracted_passages get_passages_list output).
  - intros d Hd. split.
    { unfold QueryGenTask_format_output, input_item. by rewrite Hd. }
    unfold PassagesGenTask_format_output.
    assert (passages_output (Some d) = fun _ => Raise KeyError) as Hout.
    { unfold passages_output, input_item. by rewrite Hd. }
    destruct should_get_matches; [|by rewrite Hout].
    destruct (extracted_passages get_passages_list output)
      as [|passage rest] eqn:Hp.
    + simpl. by rewrite Hout.
    + rewrite (match_passages_raises (Some d) KeyError); [done|].
      unfold input_item. by rewrite Hd.
Qed.

End Passages.

Lemma passages_format_output_witness :
  PassagesGenTask_format_output
    (fun output => Some [output; "a bird"])
    (fun chunk passage => String.substring 0 (String.length passage) chunk)
    true "the cat"
    (Some [("chunk", "here the cat sat"); ("question", "who sat?")])
  = Ok [("chunk", OStr "here the cat sat"); ("question", OStr "who sat?");
        ("passages", OList ["the cat"; "here t"])].
Proof.
  destruct (passages_format_output
              (fun output => Some [output; "a bird"])
              (fun chunk passage =>
                 String.substring 0 (String.length passage) chunk)
              true "the cat" "here the cat sat" "who sat?"
              [("chunk", "here the cat sat"); ("question", "who sat?")]
              eq_refl eq_refl) as (passages & Hout & Hp & _).
  subst passages. etrans; [exact Hout|]. vm_compute. reflexivity.
Defined.

Lemma passages_matching_idle_witness :
  PassagesGenTask_format_output
    (fun output => Some [output; "sat"])
    (fun chunk passage => chunk) true "the cat"
    (Some [("chunk", "here the cat sat"); ("question", "who sat?")])
  = PassagesGenTask_format_output
      (fun output => Some [output; "sat"])
      (fun chunk passage => chunk) false "the cat"
      (Some [("chunk", "here the cat sat"); ("question", "who sat?")]).
Proof.
  apply (passages_matching_idle (fun output => Some [output; "sat"])
           (fun chunk passage => chunk) "the cat"
           (Some [("chunk", "here the cat sat"); ("question", "who sat?")])
           "here the cat sat").
  - reflexivity.
  - repeat constructor.
Defined.

(** ** Storing twice, and removing what was stored *)

Section DictExtensionality.
Context {K V : Type} `{EqDecision K}.

(** Two dictionaries with the same distinct keys, in the same order, and
    the same value under each key are equal. *)
Lemma dict_ext (d1 d2 : PyDict.t K V) :
  NoDup (PyDict.keys d1) →
  PyDict.keys d1 = PyDict.keys d2 →
  (∀ k, PyDict.get d1 k = PyDict.get d2 k) →
  d1 = d2.
Proof.
  revert d2. induction d1 as [|[k v] rest IH]; intros [|[k' v'] rest'];
    simpl; intros Hnd Hkeys Hget; try done.
  injection Hkeys as <- Hkeys. apply NoDup_cons in Hnd as [Hk Hnd].
  pose proof (Hget k) as Hv. rewrite !decide_True in Hv; [|done..].
  injection Hv as <-. f_equal. apply IH; [done..|].
  intros j. pose proof (Hget j) as Hj.
  destruct (decide (k = j)) as [<-|Hne]; [|done].
  transitivity (@None V).
  - by apply get_None_not_key.
  - symmetry. apply get_None_not_key. by rewrite <- Hkeys.
Qed.

Lemma get_update (pairs : list (K * V)) (d : PyDict.t K V) (k : K) :
  PyDict.get (PyDict.update d pairs) k
  = match PyDict.get (rev pairs) k with
    | Some v => Some v
    | None => PyDict.get d k
    end.
Proof.
  unfold PyDict.update. revert d.
  induction pairs as [|[k0 v0] rest IH]; intros d; [done|].
  simpl. rewrite IH.
  assert (∀ (l1 l2 : PyDict.t K V),
            PyDict.get (l1 ++ l2) k
            = match PyDict.get l1 k with
              | Some v => Some v
              | None => PyDict.get l2 k
              end) as Happ.
  { intros l1 l2. induction l1 as [|[k1 v1] l1 IH1]; simpl; [done|].
    by destruct (decide (k1 = k)). }
  rewrite Happ. destruct (PyDict.get (rev rest) k); [done|]. simpl.
  destruct (decide (k0 = k)) as [->|Hne].
  - apply get_set_eq.
  - by apply get_set_ne.
Qed.

Lemma keys_update_present (pairs : list (K * V)) (d : PyDict.t K V) :
  (∀ k, k ∈ PyDict.keys pairs → k ∈ PyDict.keys d) →
  PyDict.keys (PyDict.update d pairs) = PyDict.keys d.
Proof.
  unfold PyDict.update. revert d.
  induction pairs as [|[k0 v0] rest IH]; intros d Hin; [done|].
  simpl. rewrite IH.
  - apply keys_set_present. apply Hin. left.
  - intros k Hk. rewrite keys_set_present; [|apply Hin; left].
    apply Hin. by right.
Qed.

(** Updating a second time with the same pairs changes nothing. *)
Lemma update_twice (pairs : list (K * V)) (d : PyDict.t K V) :
  NoDup (PyDict.keys d) →
  PyDict.update (PyDict.update d pairs) pairs = PyDict.update d pairs.
Proof.
  intros Hnd. apply dict_ext.
  - by do 2 apply NoDup_keys_update.
  - apply keys_update_present. intros k Hk.
    apply keys_update_superset. by right.
  - intros k. rewrite (get_update pairs (PyDict.update d pairs)).
    rewrite (get_update pairs d). by destruct (PyDict.get (rev pairs) k).
Qed.

End DictExtensionality.

(** X26. Storing is idempotent: when the identities kept in each
    collection are distinct and a [store] call succeeded, the same call
    again succeeds and leaves the backend exactly as the first call left
    it. *)
Theorem store_twice (self : QdrantVectorStore)
    (entries : list VectorStoreEntry) (s : Backend) :
  unique_identities s →
  fst (store self entries s) = Ok tt →
  store self entries (snd (store self entries s))
  = (Ok tt, snd (store self entries s)).
Proof.
  intros Hwf Hok. destruct entries as [|e entries']; [done|].
  set (entries := e :: entries') in *.
  assert (entries ≠ []) as Hne by done.
  set (pts := entry_points
                (_create_embeddings (_embedder self) (_embedding_type self)
                   entries) entries).
  assert (∀ base size dist,
            NoDup (PyDict.keys base) →
            sizes_fit size pts = true →
            store self entries
              (<[_index_name self :=
                   {| vectors_size := size; vectors_distance := dist;
                      points := fold_left upsert pts base |}]> s)
            = (Ok tt,
               <[_index_name self :=
                   {| vectors_size := size; vectors_distance := dist;
                      points := fold_left upsert pts base |}]> s))
    as Hagain.
  { intros base size dist Hbase Hfit.
    rewrite (store_eval_present self entries _ _
               (lookup_insert_eq _ _ _) Hne).
    cbn [vectors_size vectors_distance points]. fold pts. rewrite Hfit.
    rewrite insert_insert_eq. do 3 f_equal.
    rewrite !fold_upsert_update. by apply update_twice. }
  destruct (s !! _index_name self) as [c|] eqn:Hs.
  - rewrite (store_eval_present self entries s c Hs Hne) in Hok |- *.
    fold pts in Hok |- *.
    destruct (sizes_fit (vectors_size c) pts) eqn:Hfit; [|done].
    cbn [snd]. apply Hagain; [by eapply Hwf | done].
  - destruct (_create_embeddings (_embedder self) (_embedding_type self)
                entries) as [|[i v] rest] eqn:Hemb.
    + exfalso. unfold store, entries in Hok. fold entries in Hok.
      rewrite Hemb in Hok. unfold async_def, bind, collection_exists in Hok.
      rewrite bool_decide_eq_false_2 in Hok; [done|].
      rewrite Hs. by intros [? ?].
    + rewrite (store_eval_absent self entries s i v rest Hs Hemb)
        in Hok |- *.
      fold pts in Hok |- *.
      destruct (sizes_fit (length v) pts) eqn:Hfit; [|done].
      cbn [snd]. apply Hagain; [constructor | done].
Qed.

Lemma store_twice_witness :
  store (sample_store TEXT)
    [text_entry "1" "the cat"; text_entry "1" "a dog"]
    (snd (store (sample_store TEXT)
            [text_entry "1" "the cat"; text_entry "1" "a dog"] ∅))
  = (Ok tt,
     snd (store (sample_store TEXT)
            [text_entry "1" "the cat"; text_entry "1" "a dog"] ∅)).
Proof.
  apply store_twice.
  - intros name c Hc. by rewrite lookup_empty in Hc.
  - reflexivity.
Defined.

Section RemovingAll.
Context {engine : Engine}.

Lemma delete_ids_all_keys (pts : PyDict.t string (vector * Payload)) :
  NoDup (PyDict.keys pts) →
  delete_ids pts (PyDict.keys pts) = (Ok tt, []).
Proof.
  induction pts as [|[k v] rest IH]; intros Hnd; [done|].
  apply NoDup_cons in Hnd as [_ Hnd]. simpl.
  unfold PyDict.mem. simpl. destruct (decide (k = k)); [|done]. by apply IH.
Qed.

Lemma delete_ids_nil (ids : list string) :
  snd (delete_ids [] ids) = [].
Proof.
  induction ids as [|i rest IH]; [done|].
  simpl. by destruct strict_delete.
Qed.

Lemma page_empty (where_ : option WhereQuery) (limit_ : option Z)
    (offset_ : Z) (c : Collection) :
  points c = [] → page engine where_ limit_ offset_ c = [].
Proof.
  intros Hc. unfold page. rewrite Hc.
  change (filter _ []) with (@nil (string * (vector * Payload))).
  rewrite (proj1 (Permutation_nil_r _) (scan_permutation [])).
  by rewrite drop_nil, take_nil.
Qed.

(** X27. Removing what was stored empties the collection without taking
    it away: after a first [store] of entries with distinct identities
    that all have an embedding, [remove] of their identities succeeds,
    the collection still exists, and [list] returns the empty sequence. *)
Theorem store_then_remove_all (self : QdrantVectorStore)
    (entries : list VectorStoreEntry) (s : Backend) :
  s !! _index_name self = None →
  entries ≠ [] →
  NoDup (map id entries) →
  (∀ e, e ∈ entries →
        is_Some (PyDict.get
                   (_create_embeddings (_embedder self)
                      (_embedding_type self) entries) (id e))) →
  ∃ c,
    fst (remove self (map id entries) (snd (store self entries s))) = Ok tt
    ∧ snd (remove self (map id entries) (snd (store self entries s)))
      !! _index_name self = Some c
    ∧ points c = []
    ∧ fst (list_ self None None 0%Z
             (snd (remove self (map id entries)
                     (snd (store self entries s))))) = Ok [].
Proof.
  intros Hs Hne Hnd Hall.
  destruct (_create_embeddings (_embedder self) (_embedding_type self)
              entries) as [|[i v] rest] eqn:Hemb.
  { destruct entries as [|e entries']; [done|].
    destruct (Hall e) as [? Hv]; [left | done]. }
  rewrite (store_eval_absent self entries s i v rest Hs Hemb).
  destruct (entry_points_all ((i, v) :: rest) entries Hall) as [Hids _].
  set (pts := entry_points ((i, v) :: rest) entries) in *.
  assert (∀ kept : PyDict.t string (vector * Payload),
            snd (delete_ids kept (map id entries)) = [] →
            ∃ c,
              fst (remove self (map id entries)
                     (<[_index_name self :=
                          {| vectors_size := length v;
                             vectors_distance := _distance_method self;
                             points := kept |}]> s)) = Ok tt
              ∧ snd (remove self (map id entries)
                       (<[_index_name self :=
                            {| vectors_size := length v;
                               vectors_distance := _distance_method self;
                               points := kept |}]> s))
                !! _index_name self = Some c
              ∧ points c = []
              ∧ fst (list_ self None None 0%Z
                       (snd (remove self (map id entries)
                               (<[_index_name self :=
                                    {| vectors_size := length v;
                                       vectors_distance :=
                                         _distance_method self;
                                       points := kept |}]> s)))) = Ok [])
    as Hemptied.
  { intros kept Hkept.
    rewrite (remove_eval_present self _ _ _ (lookup_insert_eq _ _ _)).
    cbn [vectors_size vectors_distance points fst snd].
    rewrite Hkept, insert_insert_eq.
    eexists. split; [done|]. split; [apply lookup_insert_eq|].
    split; [done|].
    rewrite (list_present self None None 0%Z _ _ (lookup_insert_eq _ _ _));
      [|unfold effective_limit; simpl; lia | done].
    by rewrite page_empty. }
  destruct (sizes_fit (length v) pts); cbn [snd]; apply Hemptied.
  - assert (fold_left upsert pts [] = map point_item pts) as Hfold.
    { rewrite fold_upsert_update. rewrite update_fresh; [done|].
      unfold PyDict.keys. rewrite List.map_map. simpl.
      change (NoDup (map point_id pts)). by rewrite Hids. }
    rewrite Hfold.
    assert (PyDict.keys (map point_item pts) = map id entries) as Hkeys.
    { unfold PyDict.keys. rewrite List.map_map. exact Hids. }
    rewrite <- Hkeys, delete_ids_all_keys; [done | by rewrite Hkeys].
  - apply delete_ids_nil.
Qed.

End RemovingAll.

Lemma store_then_remove_all_witness :
  ∃ c,
    snd (remove (engine := embedded_engine) (sample_store TEXT)
           (map id [text_entry "1" "the cat"; text_entry "2" "a dog"])
           (snd (store (sample_store TEXT)
                   [text_entry "1" "the cat"; text_entry "2" "a dog"] ∅)))
    !! _index_name (sample_store TEXT) = Some c
    ∧ points c = [].
Proof.
  assert ((∅ : Backend) !! _index_name (sample_store TEXT) = None)
    as Hs by reflexivity.
  destruct (store_then_remove_all (engine := embedded_engine)
              (sample_store TEXT)
              [text_entry "1" "the cat"; text_entry "2" "a dog"] ∅ Hs)
    as (c & _ & Hc & Hpts & _).
  - discriminate.
  - apply (bool_decide_unpack _). vm_compute. exact I.
  - intros e He. apply elem_of_cons in He as [->|He]; [by eexists|].
    apply list_elem_of_singleton in He as ->. by eexists.
  - by exists c.
Defined.

(** ** The score threshold, where it is right *)

(** X28. For a [max_distance] that is a non-zero float, the query of
    [retrieve] carries the score threshold [1 - max_distance]; for a
    [max_distance] that is [None] or "not given" it carries none.  In both
    cases the limit of the query is the [k] of the merged options. *)
Theorem retrieve_request_threshold (self : QdrantVectorStore)
    (text_ : string) (options : option LLMOptions)
    (max_distance k : pyval) (query_vector : vector) :
  getattr (merged_options self options) "max_distance" = Ok max_distance →
  getattr (merged_options self options) "k" = Ok k →
  first_item (embed_text (_embedder self) [text_]) = Ok query_vector →
  (∀ f, max_distance = VFloat f → PrimFloat.eqb f 0%float = false →
        retrieve_request self text_ options
        = Ok {| collection_name := _index_name self;
                query := Some query_vector;
                query_filter := None;
                limit := k;
                offset := None;
                score_threshold :=
                  Some (VFloat (PrimFloat.sub 1%float f)) |})
  ∧ (max_distance = VNone ∨ max_distance = VNotGiven →
     retrieve_request self text_ options
     = Ok {| collection_name := _index_name self;
             query := Some query_vector;
             query_filter := None;
             limit := k;
             offset := None;
             score_threshold := None |}).
Proof.
  intros Hmd Hk Hq. unfold retrieve_request. rewrite Hq, Hk. split.
  - intros f -> Hf. by rewrite (score_threshold_nonzero _ f Hmd Hf).
  - intros Hv. by rewrite (score_threshold_unset _ max_distance Hmd Hv).
Qed.

Lemma retrieve_request_threshold_witness :
  retrieve_request (sample_store TEXT) "cat"
    (Some (VectorStoreOptions VNotGiven (VFloat float_0_2)))
  = Ok {| collection_name := "docs";
          query := Some [1%float; 0%float];
          query_filter := None;
          limit := VInt 5;
          offset := None;
          score_threshold := Some (VFloat float_0_8) |}.
Proof.
  apply (proj1 (retrieve_request_threshold (sample_store TEXT) "cat"
                  (Some (VectorStoreOptions VNotGiven (VFloat float_0_2)))
                  (VFloat float_0_2) (VInt 5) [1%float; 0%float]
                  eq_refl eq_refl eq_refl) float_0_2 eq_refl).
  reflexivity.
Defined.
